(** * forum: profile extraction and the new-post poller

    A shallow embedding of [forum/forum.go].  The Go standard library
    functions the file calls ([strings], [strconv], [fmt.Sprintf]) are
    written out on byte strings; the [xmlpath] library and the HTTP
    fetch ([GetHTMLRoot], declared in another file of the package) are
    an interface the development is parametric in.  A Go [int] is a
    64-bit integer, carried here as a [Z] that [Atoi] keeps in range. *)

From Stdlib Require Import ZArith List String Ascii Bool Lia.
From Stdlib Require Import Decimal DecimalString DecimalZ DecimalPos.
Import ListNotations.

Local Open Scope string_scope.
Local Open Scope Z_scope.

(** ** Go strings *)

Module strings.

(** [strings.HasPrefix]. *)
Fixpoint HasPrefix (s prefix : string) {struct prefix} : bool :=
  match prefix, s with
  | EmptyString, _ => true
  | String _ _, EmptyString => false
  | String p prefix', String c s' => Ascii.eqb c p && HasPrefix s' prefix'
  end.

(** [s[n:]] for [n <= len(s)]. *)
Fixpoint drop (n : nat) (s : string) : string :=
  match n, s with
  | O, _ => s
  | S _, EmptyString => EmptyString
  | S n', String _ s' => drop n' s'
  end.

(** [strings.TrimPrefix]: [s] without the leading [prefix], or [s]
    itself when it does not start with it. *)
Definition TrimPrefix (s prefix : string) : string :=
  if HasPrefix s prefix then drop (String.length prefix) s else s.

(** [strings.Replace(s, old, new, -1)] for a one-byte [old]: every
    occurrence is replaced. *)
Fixpoint Replace (s : string) (old : ascii) (new : string) : string :=
  match s with
  | EmptyString => EmptyString
  | String c s' =>
      if Ascii.eqb c old then new ++ Replace s' old new
      else String c (Replace s' old new)
  end.

(** [strings.Split(s, sep)] for a one-byte [sep]: the pieces between
    the separators, never an empty slice. *)
Fixpoint Split (s : string) (sep : ascii) : list string :=
  match s with
  | EmptyString => [EmptyString]
  | String c s' =>
      if Ascii.eqb c sep then EmptyString :: Split s' sep
      else match Split s' sep with
           | piece :: rest => String c piece :: rest
           | [] => [String c EmptyString]
           end
  end.

Fixpoint contains_byte (cutset : string) (c : ascii) : bool :=
  match cutset with
  | EmptyString => false
  | String d cutset' => Ascii.eqb c d || contains_byte cutset' c
  end.

Fixpoint TrimLeft (s cutset : string) : string :=
  match s with
  | EmptyString => EmptyString
  | String c s' => if contains_byte cutset c then TrimLeft s' cutset else s
  end.

Fixpoint TrimRight (s cutset : string) : string :=
  match s with
  | EmptyString => EmptyString
  | String c s' =>
      match TrimRight s' cutset with
      | EmptyString =>
          if contains_byte cutset c then EmptyString else String c EmptyString
      | kept => String c kept
      end
  end.

(** [strings.Trim] for an ASCII [cutset]. *)
Definition Trim (s cutset : string) : string :=
  TrimRight (TrimLeft s cutset) cutset.

End strings.

(** ** Go errors *)

(** The error values the package builds: [errors.New], [errors.Wrap]
    (github.com/pkg/errors) and [*strconv.NumError]; a transport error
    of the fetcher is any value of the type. *)
Inductive error : Type :=
| New (message : string)
| Wrap (cause : error) (message : string)
| NumError (Func Num : string) (Err : error).

Module strconv.

Definition ErrSyntax : error := New "invalid syntax".
Definition ErrRange : error := New "value out of range".

Definition intSize : Z := 64.
Definition maxUint64 : Z := 2 ^ 64 - 1.
Definition cutoff : Z := 2 ^ (intSize - 1).

Inductive failure : Type := BadSyntax | OutOfRange.

(** [ch -= '0'; if ch > 9 { syntax error }] on a byte. *)
Definition digit (ch : ascii) : option Z :=
  let d := (Z.of_nat (nat_of_ascii ch) - 48) mod 256 in
  if d <=? 9 then Some d else None.

(** The digit loop of [ParseUint] in base 10, from the accumulator
    [n]: a byte that is no digit is a syntax error, a value above
    [maxUint64] a range error, at the byte where it happens. *)
Fixpoint digits (s : string) (n : Z) : Z + failure :=
  match s with
  | EmptyString => inl n
  | String ch s' =>
      match digit ch with
      | None => inr BadSyntax
      | Some d =>
          if maxUint64 <? n * 10 + d then inr OutOfRange
          else digits s' (n * 10 + d)
      end
  end.

(** [strconv.Atoi]: an optional sign, then one or more decimal
    digits, the value within the range of [int].  A syntax error
    comes with 0, a range error with the nearest bound, as in
    [ParseInt]. *)
Definition Atoi (s : string) : Z * option error :=
  let fail e := Some (NumError "Atoi" s e) in
  match s with
  | EmptyString => (0, fail ErrSyntax)
  | String c rest =>
      let neg := Ascii.eqb c "-" in
      let body := if neg || Ascii.eqb c "+" then rest else s in
      match body with
      | EmptyString => (0, fail ErrSyntax)
      | _ =>
          match digits body 0 with
          | inr BadSyntax => (0, fail ErrSyntax)
          | inr OutOfRange => (if neg then - cutoff else cutoff - 1, fail ErrRange)
          | inl un =>
              if negb neg && (cutoff <=? un) then (cutoff - 1, fail ErrRange)
              else if neg && (cutoff <? un) then (- cutoff, fail ErrRange)
              else (if neg then - un else un, None)
          end
      end
  end.

End strconv.

(** ** Calls that may panic *)

(** A Go call either returns or panics; the panic of an index out of
    range or of [xmlpath.MustCompile] unwinds through every caller of
    this package, none of which recovers. *)
Inductive outcome (A : Type) : Type :=
| Ret (a : A)
| Panic (reason : string).
Arguments Ret {A} a.
Arguments Panic {A} reason.

Definition bind {A B : Type} (c : outcome A) (k : A -> outcome B) : outcome B :=
  match c with
  | Ret a => k a
  | Panic reason => Panic reason
  end.

Notation "x <- c ;; k" := (bind c (fun x => k))
  (at level 61, c at next level, right associativity).
Notation "' pat <- c ;; k" := (bind c (fun x => let 'pat := x in k))
  (at level 61, pat pattern, c at next level, right associativity).

(** [xs[i]] on a slice. *)
Definition index {A : Type} (xs : list A) (i : nat) : outcome A :=
  match nth_error xs i with
  | Some x => Ret x
  | None => Panic "runtime error: index out of range"
  end.

(** ** The xmlpath library (gopkg.in/xmlpath.v2) *)

(** What the package uses of the library: [Compile] of an expression
    ([None] for the error it returns), the nodes a compiled path
    selects from a context node, in document order, and the string
    value of a node. *)
Class XmlPath : Type := {
  Node : Type;
  Path : Type;
  Compile : string -> option Path;
  Iter : Path -> Node -> list Node;
  NodeString : Node -> string
}.

Section Forum.

Context {X : XmlPath}.

(** [xmlpath.MustCompile] panics where [Compile] returns an error. *)
Definition MustCompile (expr : string) : outcome Path :=
  match Compile expr with
  | Some path => Ret path
  | None => Panic ("xmlpath: cannot compile " ++ expr)
  end.

(** [Path.String]: the string value of the first selected node. *)
Definition Path_String (path : Path) (context : Node) : string * bool :=
  match Iter path context with
  | node :: _ => (NodeString node, true)
  | [] => (EmptyString, false)
  end.

(** [Path.Exists]. *)
Definition Path_Exists (path : Path) (context : Node) : bool :=
  match Iter path context with
  | _ :: _ => true
  | [] => false
  end.

(** Modelled from the spec: the method [GetHTMLRoot] of [ForumClient]
    is declared in another file of the package; by the contract of the
    document fetcher, [Fetch(url) -> (documentTree, error)], it answers
    a URL with a parsed document or with the error of the fetch.  The
    client is what that method answers at the time of the call. *)
Record ForumClient : Type := { GetHTMLRoot : string -> Node + error }.

Record VisitorMessage : Type := {
  VisitorMessage_UserName : string;
  Message : string
}.

Record UserProfile : Type := {
  UserName : string;
  JoinDate : string;
  TotalPosts : Z;
  Reputation : Z;
  BioText : string;
  VisitorMessages : list VisitorMessage;
  Errors : list error
}.

(** [var result UserProfile]. *)
Definition zero_UserProfile : UserProfile :=
  {| UserName := EmptyString; JoinDate := EmptyString; TotalPosts := 0;
     Reputation := 0; BioText := EmptyString; VisitorMessages := [];
     Errors := [] |}.

Definition set_UserName (r : UserProfile) (v : string) : UserProfile :=
  {| UserName := v; JoinDate := JoinDate r; TotalPosts := TotalPosts r;
     Reputation := Reputation r; BioText := BioText r;
     VisitorMessages := VisitorMessages r; Errors := Errors r |}.
Definition set_JoinDate (r : UserProfile) (v : string) : UserProfile :=
  {| UserName := UserName r; JoinDate := v; TotalPosts := TotalPosts r;
     Reputation := Reputation r; BioText := BioText r;
     VisitorMessages := VisitorMessages r; Errors := Errors r |}.
Definition set_TotalPosts (r : UserProfile) (v : Z) : UserProfile :=
  {| UserName := UserName r; JoinDate := JoinDate r; TotalPosts := v;
     Reputation := Reputation r; BioText := BioText r;
     VisitorMessages := VisitorMessages r; Errors := Errors r |}.
Definition set_Reputation (r : UserProfile) (v : Z) : UserProfile :=
  {| UserName := UserName r; JoinDate := JoinDate r; TotalPosts := TotalPosts r;
     Reputation := v; BioText := BioText r;
     VisitorMessages := VisitorMessages r; Errors := Errors r |}.
Definition set_BioText (r : UserProfile) (v : string) : UserProfile :=
  {| UserName := UserName r; JoinDate := JoinDate r; TotalPosts := TotalPosts r;
     Reputation := Reputation r; BioText := v;
     VisitorMessages := VisitorMessages r; Errors := Errors r |}.
Definition set_VisitorMessages (r : UserProfile) (v : list VisitorMessage)
  : UserProfile :=
  {| UserName := UserName r; JoinDate := JoinDate r; TotalPosts := TotalPosts r;
     Reputation := Reputation r; BioText := BioText r;
     VisitorMessages := v; Errors := Errors r |}.

(** [if err != nil { result.Errors = append(result.Errors, err) }]. *)
Definition collect (r : UserProfile) (err : option error) : UserProfile :=
  match err with
  | Some e =>
      {| UserName := UserName r; JoinDate := JoinDate r;
         TotalPosts := TotalPosts r; Reputation := Reputation r;
         BioText := BioText r; VisitorMessages := VisitorMessages r;
         Errors := Errors r ++ [e] |}
  | None => r
  end.

(** *** The path expressions of the source *)

Definition dq : string := String (ascii_of_nat 34) EmptyString.
Definition LF : string := String (ascii_of_nat 10) EmptyString.

Definition userName_expr : string :=
  "//*[@id=" ++ dq ++ "username_box" ++ dq ++ "]/h1".
Definition joinDate_expr : string :=
  "//*[@id=" ++ dq ++ "collapseobj_stats" ++ dq
    ++ "]/div/*/ul/*[contains(.,'Join Date: ')]".
Definition totalPosts_expr : string :=
  "//*[@id=" ++ dq ++ "collapseobj_stats" ++ dq ++ "]/div/fieldset[1]/ul/li[1]".
Definition postLink_expr : string :=
  "//td[@class=" ++ dq ++ "alt1" ++ dq ++ "]/div[@class=" ++ dq ++ "alt2" ++ dq
    ++ "]/div/em/a/@href".
(** [fmt.Sprintf] of the reputation expression at the fragment. *)
Definition reputation_expr (fragment : string) : string :=
  "//table[@id=" ++ dq ++ fragment ++ dq ++ "]/tbody/tr[@valign=" ++ dq ++ "top"
    ++ dq ++ "]/td[@class=" ++ dq ++ "alt2" ++ dq
    ++ "]/*/*[contains(text(),'Reputation: ')]".
Definition userBio_expr : string :=
  "//*[@id=" ++ dq ++ "collapseobj_aboutme" ++ dq ++ "]/div/ul/li[1]/dl/dd[1]".
Definition messageList_expr : string :=
  "//*[@id=" ++ dq ++ "message_list" ++ dq ++ "]/*".
Definition messageUser_expr : string := ".//div[2]/div[1]/div/a".
Definition messageText_expr : string := ".//div[2]/div[2]".

Definition member_url : string := "http://forum.sa-mp.com/member.php?u=".
Definition search_url (forumUserID : string) : string :=
  "http://forum.sa-mp.com/search.php?do=finduser&u=" ++ forumUserID.
Definition post_url (href : string) : string :=
  "http://forum.sa-mp.com/" ++ href.

(** *** The field extractors *)

Definition getUserName (root : Node) : outcome (string * option error) :=
  path <- MustCompile userName_expr ;;
  let '(result, ok) := Path_String path root in
  if negb ok then
    Ret (result, Some (New "user name xmlpath did not return a result"))
  else Ret (strings.Trim result (LF ++ " "), None).

Definition getJoinDate (root : Node) : outcome (string * option error) :=
  path <- MustCompile joinDate_expr ;;
  let '(result, ok) := Path_String path root in
  if negb ok then
    Ret (result, Some (New "join date xmlpath did not return a result"))
  else Ret (strings.TrimPrefix result "Join Date: ", None).

Definition getTotalPosts (root : Node) : outcome (Z * option error) :=
  path <- MustCompile totalPosts_expr ;;
  let '(posts, ok) := Path_String path root in
  if negb ok then
    Ret (0, Some (New "total posts xmlpath did not return a result"))
  else
    let posts := strings.TrimPrefix posts "Total Posts: " in
    let posts := strings.Replace posts "," EmptyString in
    let '(result, err) := strconv.Atoi posts in
    match err with
    | Some _ => Ret (0, Some (New "cannot convert posts to integer"))
    | None => Ret (result, None)
    end.

Definition getReputation (fc : ForumClient) (forumUserID : string)
  : outcome (Z * option error) :=
  match GetHTMLRoot fc (search_url forumUserID) with
  | inr err => Ret (0, Some (Wrap err "cannot get user's posts"))
  | inl root =>
      path <- MustCompile postLink_expr ;;
      let '(href, ok) := Path_String path root in
      if negb ok then Ret (0, Some (New "cannot get user posts"))
      else
        match GetHTMLRoot fc (post_url href) with
        | inr err => Ret (0, Some (Wrap err "cannot get user's post in a topic"))
        | inl root =>
            fragment <- index (strings.Split href "#") 1 ;;
            path <- MustCompile (reputation_expr fragment) ;;
            let fields := Iter path root in
            let reputation :=
              fold_left (fun _ node => NodeString node) fields EmptyString in
            let reputation := strings.TrimPrefix reputation "Reputation: " in
            let reputation := strings.Replace reputation "," EmptyString in
            let '(result, err) := strconv.Atoi reputation in
            match err with
            | Some e =>
                Ret (0, Some (Wrap e "cannot convert reputation to integer"))
            | None => Ret (result, None)
            end
        end
  end.

Definition getUserBio (root : Node) : outcome (string * option error) :=
  path <- MustCompile userBio_expr ;;
  let '(result, ok) := Path_String path root in
  if negb ok then
    Ret (result, Some (New "user bio xmlpath did not return a result"))
  else Ret (result, None).

(** One round of the loop over the message blocks. *)
Definition messageBlock_step (userPath textPath : Path)
    (result : list VisitorMessage) (block : Node) : list VisitorMessage :=
  let '(user, ok) := Path_String userPath block in
  if negb ok then result
  else
    let '(text, ok) := Path_String textPath block in
    if negb ok then result
    else result ++ [{| VisitorMessage_UserName := user; Message := text |}].

Definition getFirstTenUserVisitorMessages (root : Node)
  : outcome (list VisitorMessage * option error) :=
  mainPath <- MustCompile messageList_expr ;;
  userPath <- MustCompile messageUser_expr ;;
  textPath <- MustCompile messageText_expr ;;
  if negb (Path_Exists mainPath root) then
    Ret ([], Some (New "visitor messages xmlpath did not return a result"))
  else
    Ret (fold_left (messageBlock_step userPath textPath) (Iter mainPath root) [],
         None).

(** *** The profile page *)

Definition GetUserProfilePage (fc : ForumClient) (url : string)
  : outcome (UserProfile * option error) :=
  let result := zero_UserProfile in
  match GetHTMLRoot fc url with
  | inr err =>
      Ret (result, Some (Wrap err "failed to get HTML root for user page"))
  | inl root =>
      '(v, err) <- getUserName root ;;
      let result := set_UserName result v in
      match err with
      | Some e =>
          Ret (result, Some (Wrap e "url did not lead to a valid user page"))
      | None =>
          '(v, err) <- getJoinDate root ;;
          let result := collect (set_JoinDate result v) err in
          '(v, err) <- getTotalPosts root ;;
          let result := collect (set_TotalPosts result v) err in
          '(v, err) <- getReputation fc (strings.TrimPrefix url member_url) ;;
          let result := collect (set_Reputation result v) err in
          '(v, err) <- getUserBio root ;;
          let result := collect (set_BioText result v) err in
          '(v, err) <- getFirstTenUserVisitorMessages root ;;
          let result := collect (set_VisitorMessages result v) err in
          Ret (result, None)
      end
  end.

(** *** The poller *)

(** What the goroutine of [NewPostAlert] does that is visible outside
    it: a call of [GetUserProfilePage] and a call of [fn]. *)
Inductive Event : Type :=
| Extract (url : string)
| Callback.

Inductive Status : Type :=
| Ticking      (* in the loop, waiting on [ticker.C] *)
| Returned     (* left by [return] *)
| Panicked.    (* unwound by a panic of the extraction *)

Record Goroutine : Type := {
  lastPostCount : Z;
  status : Status;
  events : list Event
}.

(** [lastPostCount := -1] and the goroutine started. *)
Definition started : Goroutine :=
  {| lastPostCount := -1; status := Ticking; events := [] |}.

(** The loop body at one tick, [fc] answering as the forum does at
    that time. *)
Definition iteration (id : string) (fc : ForumClient) (g : Goroutine)
  : Goroutine :=
  let url := member_url ++ id in
  let log := (events g ++ [Extract url])%list in
  match GetUserProfilePage fc url with
  | Panic _ =>
      {| lastPostCount := lastPostCount g; status := Panicked; events := log |}
  | Ret (profile, Some _) =>
      {| lastPostCount := lastPostCount g; status := Returned; events := log |}
  | Ret (profile, None) =>
      if lastPostCount g =? -1 then
        {| lastPostCount := TotalPosts profile; status := Ticking; events := log |}
      else if lastPostCount g <? TotalPosts profile then
        {| lastPostCount := TotalPosts profile; status := Ticking;
           events := log ++ [Callback] |}
      else
        {| lastPostCount := lastPostCount g; status := Ticking; events := log |}
  end.

(** A tick reaches the body only while the goroutine is in its loop. *)
Definition tick (id : string) (g : Goroutine) (fc : ForumClient) : Goroutine :=
  match status g with
  | Ticking => iteration id fc g
  | _ => g
  end.

(** [NewPostAlert] over the ticks the ticker delivers. *)
Definition NewPostAlert (id : string) (ticks : list ForumClient) : Goroutine :=
  fold_left (tick id) ticks started.

Definition is_Callback (e : Event) : bool :=
  match e with Callback => true | Extract _ => false end.

(** How often [fn] was called. *)
Definition callbacks (g : Goroutine) : nat :=
  List.length (filter is_Callback (events g)).

End Forum.

(** ** What the specification says, in its own words *)

Module Spec.

(** The decimal numeral of an integer: a minus sign for a negative
    one, then its digits. *)
Definition decimal (z : Z) : string := NilZero.string_of_int (Z.to_int z).

Definition is_digit (c : ascii) : bool :=
  let n := nat_of_ascii c in (48 <=? n)%nat && (n <=? 57)%nat.

Fixpoint all_digits (s : string) : bool :=
  match s with
  | EmptyString => true
  | String c s' => is_digit c && all_digits s'
  end.

Definition nonempty (s : string) : bool :=
  match s with EmptyString => false | String _ _ => true end.

(** A numeric text: an optional sign, then at least one digit. *)
Definition numeric (s : string) : bool :=
  match s with
  | EmptyString => false
  | String c rest =>
      if Ascii.eqb c "-" || Ascii.eqb c "+" then nonempty rest && all_digits rest
      else all_digits s
  end.

(** [text] is [numeral] with thousands separators put in: commas
    anywhere between, before or after its bytes. *)
Inductive separated : string -> string -> Prop :=
| separated_end : separated EmptyString EmptyString
| separated_byte (c : ascii) (numeral text : string) :
    c <> ","%char -> separated numeral text ->
    separated (String c numeral) (String c text)
| separated_comma (numeral text : string) :
    separated numeral text -> separated numeral (String "," text).

(** The change poller of the specification: no baseline before the
    first tick, a baseline from then on. *)
Inductive PollerState : Type :=
| Uninitialized
| Armed (baseline : Z).

(** One tick observing [count]: the next state and whether the
    callback fires. *)
Definition on_tick (s : PollerState) (count : Z) : PollerState * bool :=
  match s with
  | Uninitialized => (Armed count, false)
  | Armed baseline =>
      if baseline <? count then (Armed count, true) else (Armed baseline, false)
  end.

(** The state after the ticks, and for each tick whether it fired. *)
Fixpoint run (s : PollerState) (counts : list Z) : PollerState * list bool :=
  match counts with
  | [] => (s, [])
  | count :: later =>
      let after := run (fst (on_tick s count)) later in
      (fst after, snd (on_tick s count) :: snd after)
  end.

End Spec.

(** ** A tabulated document library, for closed examples *)

Module Tabulated.

(** A node with its string value and, per expression, the nodes the
    expression selects from it. *)
#[local] Unset Elimination Schemes.
Inductive Page : Type :=
| page (text : string) (answers : list (string * list Page)).

#[local] Set Elimination Schemes.

Definition text_of (p : Page) : string :=
  match p with page text _ => text end.

Definition select (expr : string) (p : Page) : list Page :=
  match p with
  | page _ answers =>
      match find (fun a => String.eqb (fst a) expr) answers with
      | Some a => snd a
      | None => []
      end
  end.

Definition library : XmlPath :=
  {| Node := Page; Path := string; Compile := fun expr => Some expr;
     Iter := select; NodeString := text_of |}.

Definition leaf (text : string) : Page := page text [].

(** A forum that serves the listed pages and fails on any other URL. *)
Definition serve (pages : list (string * Page)) : @ForumClient library :=
  @Build_ForumClient library (fun url =>
    match find (fun a => String.eqb (fst a) url) pages with
    | Some a => inl (snd a)
    | None => inr (New "no such page")
    end).

Definition block (user text : list Page) : Page :=
  page "" [(messageUser_expr, user); (messageText_expr, text)].

(** A member page with [posts] as the text of its post count and
    [name] as the text of its heading; three visitor messages, and
    one without an author between them. *)
Definition member (name posts : string) : Page :=
  page "" [
    (userName_expr, [leaf name]);
    (joinDate_expr, [leaf "Join Date: March 2009"]);
    (totalPosts_expr, [leaf posts]);
    (userBio_expr, [leaf "scripter"]);
    (messageList_expr,
      [ block [leaf "ann"] [leaf "hi"];
        block [] [leaf "lost"];
        block [leaf "bob"] [leaf "hello"];
        block [leaf "ann"] [leaf "hi"] ])
  ].

(** A page on which no expression selects anything. *)
Definition blank : Page := page "" [].

Definition search (href : string) : Page :=
  page "" [(postLink_expr, [leaf href])].

Definition thread (fragment : string) (labels : list string) : Page :=
  page "" [(reputation_expr fragment, map leaf labels)].

Definition kalcor_url : string := member_url ++ "3".

(** User 3 with [posts] posts, whose latest post is [#post7] of a
    thread showing the two labels. *)
Definition forum (posts : string) : @ForumClient library :=
  serve [
    (kalcor_url, member (LF ++ "Kalcor ") posts);
    (search_url "3", search "showthread.php?p=7#post7");
    (post_url "showthread.php?p=7#post7",
      thread "post7" ["Reputation: 1"; "Reputation: -1,234"])
  ].

(** The same forum when the permalink carries no fragment. *)
Definition forum_without_fragment : @ForumClient library :=
  serve [
    (kalcor_url, member "Kalcor" "Total Posts: 10");
    (search_url "3", search "showthread.php?p=7");
    (post_url "showthread.php?p=7", thread "post7" ["Reputation: 1"])
  ].

(** A member page whose heading holds blanks only. *)
Definition forum_blank_name : @ForumClient library :=
  serve [(kalcor_url, member (" " ++ LF) "Total Posts: 10")].

(** A forum that is down. *)
Definition down : @ForumClient library := serve [].

(** Only the member page answers: the reputation lookup fails at
    its first fetch. *)
Definition posts_only (posts : string) : @ForumClient library :=
  serve [(kalcor_url, member "Kalcor" posts)].

(** A thread whose only label holds no number. *)
Definition forum_odd_label : @ForumClient library :=
  serve [
    (search_url "3", search "showthread.php?p=7#post7");
    (post_url "showthread.php?p=7#post7", thread "post7" ["Reputation: high"])
  ].

(** The member page of user 3 showing [posts]; the reputation lookup
    fails at its first fetch. *)
Definition showing (posts : string) : @ForumClient library :=
  posts_only ("Total Posts: " ++ posts).

(** A forum whose search page links to a page that is missing. *)
Definition forum_dead_link : @ForumClient library :=
  serve [(search_url "3", search "showthread.php?p=7#post7")].

(** A thread in which the post has no reputation label. *)
Definition forum_no_label : @ForumClient library :=
  serve [
    (search_url "3", search "showthread.php?p=7#post7");
    (post_url "showthread.php?p=7#post7", thread "post7" [])
  ].

(** A permalink with a second [#] behind the anchor. *)
Definition forum_two_hashes : @ForumClient library :=
  serve [
    (search_url "3", search "showthread.php?p=7#post7#top");
    (post_url "showthread.php?p=7#post7#top", thread "post7" ["Reputation: 55"])
  ].

End Tabulated.

(** ** Vocabulary of the properties *)

Section Vocabulary.

Context {X : XmlPath}.

(** The errors among the results of the field extractors. *)
Definition failures (errs : list (option error)) : list error :=
  flat_map (fun err => match err with Some e => [e] | None => [] end) errs.

Definition failed (err : option error) : bool :=
  match err with Some _ => true | None => false end.

(** The reputation lookup gets through its two fetches and the label
    query selects [fields] in the discussion page. *)
Definition reputation_fields (fc : ForumClient) (forumUserID : string)
    (fields : list Node) : Prop :=
  exists root linkPath link links root' piece fragment pieces labelPath,
    GetHTMLRoot fc (search_url forumUserID) = inl root /\
    Compile postLink_expr = Some linkPath /\
    Iter linkPath root = link :: links /\
    GetHTMLRoot fc (post_url (NodeString link)) = inl root' /\
    strings.Split (NodeString link) "#" = piece :: fragment :: pieces /\
    Compile (reputation_expr fragment) = Some labelPath /\
    Iter labelPath root' = fields.

(** The text of a numeric field once its label and the separators
    are stripped. *)
Definition stripped (label text : string) : string :=
  strings.Replace (strings.TrimPrefix text label) "," EmptyString.

(** What the lookup returns for the text of the label node it chose. *)
Definition reputation_of (text : string) : Z * option error :=
  match strconv.Atoi (stripped "Reputation: " text) with
  | (_, Some e) => (0, Some (Wrap e "cannot convert reputation to integer"))
  | (result, None) => (result, None)
  end.

(** A message block with both an author and a body. *)
Definition well_formed (userPath textPath : Path) (block : Node) : bool :=
  Path_Exists userPath block && Path_Exists textPath block.

Definition message_of (userPath textPath : Path) (block : Node)
  : VisitorMessage :=
  {| VisitorMessage_UserName := fst (Path_String userPath block);
     Message := fst (Path_String textPath block) |}.

(** The extraction for user [id] succeeds on [fc] with [count] posts. *)
Definition observes (id : string) (fc : ForumClient) (count : Z) : Prop :=
  exists profile,
    GetUserProfilePage fc (member_url ++ id) = Ret (profile, None) /\
    TotalPosts profile = count.

(** The extraction for user [id] fails outright on [fc]: the fetch
    fails, or the page has no username. *)
Definition fails_outright (id : string) (fc : ForumClient) : Prop :=
  (exists err, GetHTMLRoot fc (member_url ++ id) = inr err) \/
  (exists root path,
      GetHTMLRoot fc (member_url ++ id) = inl root /\
      Compile userName_expr = Some path /\
      Iter path root = []).

(** The events of ticks that all extract, given which of them fire. *)
Definition events_of (id : string) (fires : list bool) : list Event :=
  flat_map (fun fired : bool =>
              Extract (member_url ++ id) :: if fired then [Callback] else [])
           fires.

(** The value of [lastPostCount] that stands for a poller state. *)
Definition stored (s : Spec.PollerState) : Z :=
  match s with
  | Spec.Uninitialized => -1
  | Spec.Armed baseline => baseline
  end.

Definition in_int_range (z : Z) : Prop :=
  - strconv.cutoff <= z < strconv.cutoff.

(** The constant expressions of the extractors of the member page are
    accepted by the library. *)
Definition literals_compile : Prop :=
  Forall (fun expr => Compile expr <> None)
         [userName_expr; joinDate_expr; totalPosts_expr; userBio_expr;
          messageList_expr; messageUser_expr; messageText_expr].

Definition is_Extract (e : Event) : bool :=
  match e with Extract _ => true | Callback => false end.

(** How often the goroutine called [GetUserProfilePage]. *)
Definition extractions (g : Goroutine) : nat :=
  List.length (filter is_Extract (events g)).

End Vocabulary.

(** ** Tactics *)

(** Evaluates [strconv.digit] at a byte that is known. *)
Ltac eval_digit :=
  match goal with
  | |- context [strconv.digit ?c] =>
      let v := eval vm_compute in (strconv.digit c) in
      change (strconv.digit c) with v; cbv iota beta
  end.

(** Proves [observes] on a tabulated forum by running the extraction. *)
Ltac observed :=
  eexists; split; [vm_compute; reflexivity | reflexivity].

(** Proves that a tabulated forum does not show -1 posts. *)
Ltac never_minus_one :=
  intros count (profile & Hpage & <-); vm_compute in Hpage;
  injection Hpage as <-; discriminate.

(** * Facts *)

(** ** Strings and numerals *)

Lemma HasPrefix_app (p s : string) : strings.HasPrefix (p ++ s) p = true.
Proof.
  induction p as [|c p IH]; simpl; [reflexivity|].
  now rewrite Ascii.eqb_refl, IH.
Qed.

Lemma drop_app (p s : string) : strings.drop (String.length p) (p ++ s) = s.
Proof. induction p as [|c p IH]; simpl; auto. Qed.

Lemma TrimPrefix_app (p s : string) : strings.TrimPrefix (p ++ s) p = s.
Proof. unfold strings.TrimPrefix. now rewrite HasPrefix_app, drop_app. Qed.

Lemma digit_is_digit (c : ascii) :
  Spec.is_digit c = match strconv.digit c with Some _ => true | None => false end.
Proof. destruct c as [[] [] [] [] [] [] [] []]; reflexivity. Qed.

Lemma digits_not_all_digits (s : string) :
  Spec.all_digits s = false -> forall n, exists f, strconv.digits s n = inr f.
Proof.
  induction s as [|c s IH]; simpl; [discriminate|].
  intros H n. rewrite digit_is_digit in H.
  destruct (strconv.digit c) as [d|]; [|eauto].
  destruct (strconv.maxUint64 <? n * 10 + d); [eauto|].
  apply IH. exact H.
Qed.

Lemma Atoi_not_numeric (s : string) :
  Spec.numeric s = false -> exists v e, strconv.Atoi s = (v, Some e).
Proof.
  destruct s as [|c rest]; [intros _; simpl; eauto|].
  unfold Spec.numeric, strconv.Atoi.
  assert (Hsign : Ascii.eqb c "-" || Ascii.eqb c "+"
                  = (Ascii.eqb c "-" || Ascii.eqb c "+")) by reflexivity.
  destruct (Ascii.eqb c "-" || Ascii.eqb c "+") eqn:Hs.
  - destruct rest as [|c' rest']; [intros _; eauto|].
    simpl Spec.nonempty. rewrite andb_true_l. intros H.
    destruct (digits_not_all_digits _ H 0) as [f ->].
    destruct f; eauto.
  - intros H.
    destruct (digits_not_all_digits _ H 0) as [f ->].
    destruct f; eauto.
Qed.

Lemma of_uint_acc_le (d : uint) :
  forall acc, (acc <= Pos.of_uint_acc d acc)%positive.
Proof.
  induction d; intros acc; cbn [Pos.of_uint_acc]; try apply Pos.le_refl;
    (eapply Pos.le_trans; [|apply IHd]); lia.
Qed.

Lemma digits_of_uint_acc (d : uint) :
  forall acc,
    Zpos (Pos.of_uint_acc d acc) <= strconv.maxUint64 ->
    strconv.digits (NilEmpty.string_of_uint d) (Zpos acc)
    = inl (Zpos (Pos.of_uint_acc d acc)).
Proof.
  induction d as [|d IH|d IH|d IH|d IH|d IH|d IH|d IH|d IH|d IH|d IH];
    intros acc Hle;
    cbn [Pos.of_uint_acc NilEmpty.string_of_uint strconv.digits] in *;
    [reflexivity | ..].
  all: eval_digit.
  all: match goal with
       | |- context [Pos.of_uint_acc ?l ?a] =>
           pose proof (of_uint_acc_le l a) as Hmono;
           replace (Zpos acc * 10 + _) with (Zpos a) by lia;
           destruct (Z.ltb_spec strconv.maxUint64 (Zpos a)); [lia|];
           now apply IH
       end.
Qed.

Lemma digits_of_uint (d : uint) :
  Z.of_N (Pos.of_uint d) <= strconv.maxUint64 ->
  strconv.digits (NilEmpty.string_of_uint d) 0 = inl (Z.of_N (Pos.of_uint d)).
Proof.
  induction d as [|d IH|d IH|d IH|d IH|d IH|d IH|d IH|d IH|d IH|d IH];
    intros Hle;
    cbn [Pos.of_uint NilEmpty.string_of_uint strconv.digits] in *;
    [reflexivity | ..].
  all: eval_digit.
  all: cbn [Z.mul Z.add Z.of_N] in *.
  all: try (change (strconv.maxUint64 <? 0) with false; cbv iota; now apply IH).
  all: match goal with
       | |- context [strconv.maxUint64 <? ?k] =>
           change (strconv.maxUint64 <? k) with false; cbv iota
       end.
  all: now apply digits_of_uint_acc.
Qed.

Lemma NilZero_string_of_uint (d : uint) :
  d <> Nil -> NilZero.string_of_uint d = NilEmpty.string_of_uint d.
Proof. destruct d; [congruence | reflexivity ..]. Qed.

Lemma cutoff_le_maxUint64 : strconv.cutoff <= strconv.maxUint64.
Proof. vm_compute. discriminate. Qed.

Lemma Atoi_of_uint (d : uint) :
  d <> Nil ->
  Z.of_N (Pos.of_uint d) < strconv.cutoff ->
  strconv.Atoi (NilEmpty.string_of_uint d) = (Z.of_N (Pos.of_uint d), None).
Proof.
  intros Hnil Hlt. pose proof cutoff_le_maxUint64 as Hmax.
  assert (Hd : strconv.digits (NilEmpty.string_of_uint d) 0
               = inl (Z.of_N (Pos.of_uint d))) by (apply digits_of_uint; lia).
  destruct d; [congruence | ..];
    cbn [NilEmpty.string_of_uint] in *; unfold strconv.Atoi;
    cbn [Ascii.eqb Bool.eqb orb negb andb]; cbv iota; rewrite Hd;
    match goal with
    | |- context [strconv.cutoff <=? ?v] =>
        destruct (Z.leb_spec strconv.cutoff v); [lia | reflexivity]
    end.
Qed.

Lemma Atoi_minus_of_uint (d : uint) :
  d <> Nil ->
  Z.of_N (Pos.of_uint d) <= strconv.cutoff ->
  strconv.Atoi (String "-" (NilEmpty.string_of_uint d))
  = (- Z.of_N (Pos.of_uint d), None).
Proof.
  intros Hnil Hle. pose proof cutoff_le_maxUint64 as Hmax.
  assert (Hd : strconv.digits (NilEmpty.string_of_uint d) 0
               = inl (Z.of_N (Pos.of_uint d))) by (apply digits_of_uint; lia).
  unfold strconv.Atoi. cbn [Ascii.eqb Bool.eqb orb negb andb]. cbv iota.
  destruct (NilEmpty.string_of_uint d) eqn:Hs; [now destruct d|].
  rewrite Hd.
  destruct (Z.ltb_spec strconv.cutoff (Z.of_N (Pos.of_uint d))); [lia|].
  reflexivity.
Qed.

Lemma Atoi_decimal (z : Z) :
  - strconv.cutoff <= z < strconv.cutoff ->
  strconv.Atoi (Spec.decimal z) = (z, None).
Proof.
  intros Hrange. unfold Spec.decimal.
  destruct z as [|p|p]; [reflexivity | ..]; cbn [Z.to_int NilZero.string_of_int];
    pose proof (DecimalPos.Unsigned.of_to p) as Hp;
    pose proof (DecimalPos.Unsigned.to_uint_nonnil p) as Hnil;
    rewrite NilZero_string_of_uint by assumption.
  - rewrite Atoi_of_uint by (rewrite ?Hp; cbn [Z.of_N]; (assumption || lia)).
    now rewrite Hp.
  - rewrite Atoi_minus_of_uint by (rewrite ?Hp; cbn [Z.of_N]; (assumption || lia)).
    now rewrite Hp.
Qed.

(** ** The field extractors *)

Section Extractors.

Context {X : XmlPath}.

Lemma MustCompile_Some (expr : string) (path : Path) :
  Compile expr = Some path -> MustCompile expr = Ret path.
Proof. unfold MustCompile. now intros ->. Qed.

Lemma Path_String_first (path : Path) (context node : Node) (more : list Node) :
  Iter path context = node :: more ->
  Path_String path context = (NodeString node, true).
Proof. unfold Path_String. now intros ->. Qed.

Lemma Path_String_none (path : Path) (context : Node) :
  Iter path context = [] -> Path_String path context = (EmptyString, false).
Proof. unfold Path_String. now intros ->. Qed.

Lemma Path_String_ok (path : Path) (context : Node) :
  snd (Path_String path context) = Path_Exists path context.
Proof. unfold Path_String, Path_Exists. now destruct (Iter path context). Qed.

Lemma Path_String_zero (path : Path) (context : Node) (text : string) :
  Path_String path context = (text, false) -> text = EmptyString.
Proof.
  unfold Path_String. destruct (Iter path context); now intros [= <-].
Qed.

Lemma Split_without_separator (s : string) (sep : ascii) :
  strings.contains_byte s sep = false -> strings.Split s sep = [s].
Proof.
  induction s as [|c s IH]; cbn [strings.contains_byte strings.Split];
    [reflexivity|].
  rewrite Ascii.eqb_sym. intros H. apply orb_false_iff in H as [-> H].
  now rewrite (IH H).
Qed.

Lemma last_field (fields : list Node) (last : Node) (start : string) :
  fold_left (fun _ node => NodeString node) (fields ++ [last]) start
  = NodeString last.
Proof. now rewrite fold_left_app. Qed.

(** The value the lookup returns once it reaches the label query. *)
Lemma getReputation_fields (fc : ForumClient) (forumUserID : string)
    (fields : list Node) :
  reputation_fields fc forumUserID fields ->
  getReputation fc forumUserID
  = Ret (reputation_of
           (fold_left (fun _ node => NodeString node) fields EmptyString)).
Proof.
  intros (root & linkPath & link & links & root' & piece & fragment & pieces
          & labelPath & Hsearch & Hlink & Hlinks & Hpost & Hsplit & Hlabel
          & Hfields).
  unfold getReputation. rewrite Hsearch, (MustCompile_Some _ _ Hlink).
  cbn [bind]. rewrite (Path_String_first _ _ _ _ Hlinks). cbn [negb].
  rewrite Hpost, Hsplit. cbn [index nth_error bind].
  rewrite (MustCompile_Some _ _ Hlabel). cbn [bind]. rewrite Hfields.
  unfold reputation_of, stripped.
  destruct (strconv.Atoi _) as [result [e|]]; reflexivity.
Qed.

(** A reputation that comes with an error is 0. *)
Lemma getReputation_failed_zero (fc : ForumClient) (forumUserID : string)
    (v : Z) (e : error) :
  getReputation fc forumUserID = Ret (v, Some e) -> v = 0.
Proof.
  unfold getReputation.
  destruct (GetHTMLRoot fc _) as [root|err]; [|now intros [= <- _]].
  destruct (MustCompile postLink_expr) as [path|]; [|discriminate].
  cbn [bind]. destruct (Path_String path root) as [href []]; cbn [negb];
    [|now intros [= <- _]].
  destruct (GetHTMLRoot fc _) as [root'|err]; [|now intros [= <- _]].
  destruct (index _ 1) as [fragment|]; [|discriminate]. cbn [bind].
  destruct (MustCompile _) as [path'|]; [|discriminate]. cbn [bind].
  destruct (strconv.Atoi _) as [result [e'|]]; [now intros [= <- _]|].
  discriminate.
Qed.

Lemma getJoinDate_failed_zero (root : Node) (v : string) (e : error) :
  getJoinDate root = Ret (v, Some e) -> v = EmptyString.
Proof.
  unfold getJoinDate. destruct (MustCompile _) as [path|]; [|discriminate].
  cbn [bind]. destruct (Path_String path root) as [text []] eqn:Hs;
    cbn [negb]; [discriminate|].
  intros [= <- _]. exact (Path_String_zero _ _ _ Hs).
Qed.

Lemma getTotalPosts_failed_zero (root : Node) (v : Z) (e : error) :
  getTotalPosts root = Ret (v, Some e) -> v = 0.
Proof.
  unfold getTotalPosts. destruct (MustCompile _) as [path|]; [|discriminate].
  cbn [bind]. destruct (Path_String path root) as [text []];
    cbn [negb]; [|now intros [= <- _]].
  destruct (strconv.Atoi _) as [result [e'|]]; [now intros [= <- _]|].
  discriminate.
Qed.

Lemma getUserBio_failed_zero (root : Node) (v : string) (e : error) :
  getUserBio root = Ret (v, Some e) -> v = EmptyString.
Proof.
  unfold getUserBio. destruct (MustCompile _) as [path|]; [|discriminate].
  cbn [bind]. destruct (Path_String path root) as [text []] eqn:Hs;
    cbn [negb]; [discriminate|].
  intros [= <- _]. exact (Path_String_zero _ _ _ Hs).
Qed.

Lemma getFirstTenUserVisitorMessages_failed_zero (root : Node)
    (v : list VisitorMessage) (e : error) :
  getFirstTenUserVisitorMessages root = Ret (v, Some e) -> v = [].
Proof.
  unfold getFirstTenUserVisitorMessages.
  destruct (MustCompile messageList_expr) as [mainPath|]; [|discriminate].
  destruct (MustCompile messageUser_expr) as [userPath|]; [|discriminate].
  destruct (MustCompile messageText_expr) as [textPath|]; [|discriminate].
  cbn [bind]. destruct (Path_Exists mainPath root); cbn [negb];
    [discriminate | now intros [= <- _]].
Qed.

Lemma messageBlock_step_eq (userPath textPath : Path)
    (result : list VisitorMessage) (block : Node) :
  messageBlock_step userPath textPath result block
  = (result ++ if well_formed userPath textPath block
               then [message_of userPath textPath block] else [])%list.
Proof.
  unfold messageBlock_step, well_formed, message_of.
  rewrite <- !Path_String_ok.
  destruct (Path_String userPath block) as [user []];
    destruct (Path_String textPath block) as [text []];
    cbn [negb andb snd fst]; now rewrite ?app_nil_r.
Qed.

(** The loop over the message blocks keeps the well-formed blocks, in
    their order, behind what it has already. *)
Lemma messageBlock_loop (userPath textPath : Path) (blocks : list Node) :
  forall result,
    fold_left (messageBlock_step userPath textPath) blocks result
    = (result ++ map (message_of userPath textPath)
                     (filter (well_formed userPath textPath) blocks))%list.
Proof.
  induction blocks as [|block blocks IH]; intros result; cbn [fold_left filter].
  - now rewrite app_nil_r.
  - rewrite IH, messageBlock_step_eq.
    destruct (well_formed userPath textPath block); cbn [map].
    + now rewrite <- app_assoc.
    + now rewrite app_nil_r.
Qed.

Lemma UserName_collect (r : UserProfile) (err : option error) :
  UserName (collect r err) = UserName r.
Proof. now destruct err. Qed.

(** The profile page once the document is fetched, the username
    found and every field extractor has returned. *)
Lemma GetUserProfilePage_fields (fc : ForumClient) (url : string) (root : Node)
    (name jd bio : string) (tp rep : Z) (vm : list VisitorMessage)
    (ejd etp erep ebio evm : option error) :
  GetHTMLRoot fc url = inl root ->
  getUserName root = Ret (name, None) ->
  getJoinDate root = Ret (jd, ejd) ->
  getTotalPosts root = Ret (tp, etp) ->
  getReputation fc (strings.TrimPrefix url member_url) = Ret (rep, erep) ->
  getUserBio root = Ret (bio, ebio) ->
  getFirstTenUserVisitorMessages root = Ret (vm, evm) ->
  GetUserProfilePage fc url
  = Ret ({| UserName := name; JoinDate := jd; TotalPosts := tp;
            Reputation := rep; BioText := bio; VisitorMessages := vm;
            Errors := failures [ejd; etp; erep; ebio; evm] |}, None).
Proof.
  intros Hroot Hname Hjd Htp Hrep Hbio Hvm. unfold GetUserProfilePage.
  rewrite Hroot, Hname. cbn [bind]. rewrite Hjd. cbn [bind].
  rewrite Htp. cbn [bind]. rewrite Hrep. cbn [bind]. rewrite Hbio.
  cbn [bind]. rewrite Hvm. cbn [bind].
  destruct ejd, etp, erep, ebio, evm; reflexivity.
Qed.

(** C1. When the document is fetched and the username expression
    selects nothing in it, [GetUserProfilePage] returns the error of
    an invalid user page together with the zero [UserProfile]: no
    field of the page is extracted. *)
Theorem GetUserProfilePage_without_username (fc : ForumClient) (url : string)
    (root : Node) (path : Path) :
  GetHTMLRoot fc url = inl root ->
  Compile userName_expr = Some path ->
  Iter path root = [] ->
  GetUserProfilePage fc url
  = Ret (zero_UserProfile,
         Some (Wrap (New "user name xmlpath did not return a result")
                    "url did not lead to a valid user page")).
Proof.
  intros Hroot Hpath Hnone. unfold GetUserProfilePage, getUserName.
  rewrite Hroot, (MustCompile_Some _ _ Hpath). cbn [bind].
  rewrite (Path_String_none _ _ Hnone). reflexivity.
Qed.

(** X17. With the page fetched, the username found and each of the
    five field extractors returning, the call succeeds, every field
    holds what its own extractor returned, [Errors] holds the errors of
    the failed extractors in the order join date, total posts,
    reputation, bio, visitor messages, one entry per failed field,
    and a failed field is at its zero value. *)
Theorem Errors_collects_field_failures (fc : ForumClient) (url : string)
    (root : Node) (name jd bio : string) (tp rep : Z)
    (vm : list VisitorMessage) (ejd etp erep ebio evm : option error) :
  GetHTMLRoot fc url = inl root ->
  getUserName root = Ret (name, None) ->
  getJoinDate root = Ret (jd, ejd) ->
  getTotalPosts root = Ret (tp, etp) ->
  getReputation fc (strings.TrimPrefix url member_url) = Ret (rep, erep) ->
  getUserBio root = Ret (bio, ebio) ->
  getFirstTenUserVisitorMessages root = Ret (vm, evm) ->
  exists profile,
    GetUserProfilePage fc url = Ret (profile, None) /\
    Errors profile = failures [ejd; etp; erep; ebio; evm] /\
    List.length (Errors profile)
    = List.length (filter failed [ejd; etp; erep; ebio; evm]) /\
    (UserName profile = name /\ JoinDate profile = jd /\
     TotalPosts profile = tp /\ Reputation profile = rep /\
     BioText profile = bio /\ VisitorMessages profile = vm) /\
    (failed ejd = true -> JoinDate profile = EmptyString) /\
    (failed etp = true -> TotalPosts profile = 0) /\
    (failed erep = true -> Reputation profile = 0) /\
    (failed ebio = true -> BioText profile = EmptyString) /\
    (failed evm = true -> VisitorMessages profile = []).
Proof.
  intros Hroot Hname Hjd Htp Hrep Hbio Hvm.
  eexists. split; [eapply GetUserProfilePage_fields; eassumption|].
  cbn [Errors UserName JoinDate TotalPosts Reputation BioText VisitorMessages].
  split; [reflexivity|].
  split; [destruct ejd, etp, erep, ebio, evm; reflexivity|].
  split; [now repeat split|].
  repeat split.
  - destruct ejd; [intros _|discriminate].
    eapply getJoinDate_failed_zero; eassumption.
  - destruct etp; [intros _|discriminate].
    eapply getTotalPosts_failed_zero; eassumption.
  - destruct erep; [intros _|discriminate].
    eapply getReputation_failed_zero; eassumption.
  - destruct ebio; [intros _|discriminate].
    eapply getUserBio_failed_zero; eassumption.
  - destruct evm; [intros _|discriminate].
    eapply getFirstTenUserVisitorMessages_failed_zero; eassumption.
Qed.

(** C2. The claim fails where the reputation lookup panics: with the
    page fetched, the username found and the join date and the post
    count extracted, the panic of the lookup is the outcome of the
    whole call, so no profile, no field and no entry of [Errors] is
    returned. *)
Theorem GetUserProfilePage_panics_with_the_lookup (fc : ForumClient)
    (url : string) (root : Node) (name jd : string) (tp : Z)
    (ejd etp : option error) (reason : string) :
  GetHTMLRoot fc url = inl root ->
  getUserName root = Ret (name, None) ->
  getJoinDate root = Ret (jd, ejd) ->
  getTotalPosts root = Ret (tp, etp) ->
  getReputation fc (strings.TrimPrefix url member_url) = Panic reason ->
  GetUserProfilePage fc url = Panic reason.
Proof.
  intros Hroot Hname Hjd Htp Hrep. unfold GetUserProfilePage.
  rewrite Hroot, Hname. cbn [bind]. rewrite Hjd. cbn [bind].
  rewrite Htp. cbn [bind]. rewrite Hrep. reflexivity.
Qed.

(** C4. When both fetches of the reputation lookup succeed and the
    permalink of the search page holds no [#], the lookup panics at
    [strings.Split(href, "#")[1]]: it does not return. *)
Theorem getReputation_panics_without_fragment (fc : ForumClient)
    (forumUserID : string) (root root' : Node) (path : Path) (link : Node)
    (links : list Node) :
  GetHTMLRoot fc (search_url forumUserID) = inl root ->
  Compile postLink_expr = Some path ->
  Iter path root = link :: links ->
  GetHTMLRoot fc (post_url (NodeString link)) = inl root' ->
  strings.contains_byte (NodeString link) "#" = false ->
  getReputation fc forumUserID = Panic "runtime error: index out of range".
Proof.
  intros Hsearch Hpath Hlinks Hpost Hplain. unfold getReputation.
  rewrite Hsearch, (MustCompile_Some _ _ Hpath). cbn [bind].
  rewrite (Path_String_first _ _ _ _ Hlinks). cbn [negb].
  rewrite Hpost, (Split_without_separator _ _ Hplain). reflexivity.
Qed.

(** The lookup panics as well when the library refuses the expression
    built from the fragment. *)
Lemma getReputation_panics_on_refused_expression (fc : ForumClient)
    (forumUserID : string) (root root' : Node) (path : Path) (link : Node)
    (links : list Node) (piece fragment : string) (pieces : list string) :
  GetHTMLRoot fc (search_url forumUserID) = inl root ->
  Compile postLink_expr = Some path ->
  Iter path root = link :: links ->
  GetHTMLRoot fc (post_url (NodeString link)) = inl root' ->
  strings.Split (NodeString link) "#" = piece :: fragment :: pieces ->
  Compile (reputation_expr fragment) = None ->
  exists reason, getReputation fc forumUserID = Panic reason.
Proof.
  intros Hsearch Hpath Hlinks Hpost Hsplit Hrefused. unfold getReputation.
  rewrite Hsearch, (MustCompile_Some _ _ Hpath). cbn [bind].
  rewrite (Path_String_first _ _ _ _ Hlinks). cbn [negb].
  rewrite Hpost, Hsplit. cbn [index nth_error bind].
  unfold MustCompile. rewrite Hrefused. cbn [bind]. eauto.
Qed.

(** C7, as the code has it.  A profile returned without an error has
    as [UserName] the text of the first node the username expression
    selects, with the line feeds and blanks at its ends trimmed; the
    trimmed text may be empty. *)
Theorem returned_UserName_is_trimmed_heading (fc : ForumClient) (url : string)
    (profile : UserProfile) :
  GetUserProfilePage fc url = Ret (profile, None) ->
  exists root path heading more,
    GetHTMLRoot fc url = inl root /\
    Compile userName_expr = Some path /\
    Iter path root = heading :: more /\
    UserName profile = strings.Trim (NodeString heading) (LF ++ " ").
Proof.
  unfold GetUserProfilePage, getUserName, MustCompile, Path_String.
  destruct (GetHTMLRoot fc url) as [root|err] eqn:Hroot; [|discriminate].
  destruct (Compile userName_expr) as [path|] eqn:Hpath; [|discriminate].
  cbn [bind].
  destruct (Iter path root) as [|heading more] eqn:Hiter; [discriminate|].
  cbn [negb bind].
  destruct (getJoinDate root) as [[jd ejd]|]; [|discriminate]. cbn [bind].
  destruct (getTotalPosts root) as [[tp etp]|]; [|discriminate]. cbn [bind].
  destruct (getReputation fc _) as [[rep erep]|]; [|discriminate]. cbn [bind].
  destruct (getUserBio root) as [[bio ebio]|]; [|discriminate]. cbn [bind].
  destruct (getFirstTenUserVisitorMessages root) as [[vm evm]|];
    [|discriminate].
  cbn [bind]. intros [= <-]. exists root, path, heading, more.
  repeat split; trivial.
  repeat (rewrite UserName_collect;
          cbn [UserName set_VisitorMessages set_BioText set_Reputation
               set_TotalPosts set_JoinDate set_UserName]).
  reflexivity.
Qed.

(** C8. When the label query selects several nodes in the discussion
    page, the reputation is read from the text of the last of them. *)
Theorem getReputation_takes_last_label (fc : ForumClient)
    (forumUserID : string) (fields : list Node) (last : Node) :
  reputation_fields fc forumUserID (fields ++ [last]) ->
  getReputation fc forumUserID = Ret (reputation_of (NodeString last)).
Proof.
  intros H. rewrite (getReputation_fields _ _ _ H). now rewrite last_field.
Qed.

Lemma Replace_separated (numeral text : string) :
  Spec.separated numeral text ->
  strings.Replace text "," EmptyString = numeral.
Proof.
  induction 1 as [|c numeral text Hc _ IH|numeral text _ IH];
    cbn [strings.Replace]; [reflexivity | | exact IH].
  destruct (Ascii.eqb_spec c ","); [contradiction | now rewrite IH].
Qed.

Lemma stripped_label (label text : string) :
  stripped label (label ++ text) = strings.Replace text "," EmptyString.
Proof. unfold stripped. now rewrite TrimPrefix_app. Qed.

Lemma getTotalPosts_text (root : Node) (path : Path) (node : Node)
    (more : list Node) :
  Compile totalPosts_expr = Some path ->
  Iter path root = node :: more ->
  getTotalPosts root
  = Ret (match strconv.Atoi (stripped "Total Posts: " (NodeString node)) with
         | (_, Some _) => (0, Some (New "cannot convert posts to integer"))
         | (result, None) => (result, None)
         end).
Proof.
  intros Hpath Hiter. unfold getTotalPosts, stripped.
  rewrite (MustCompile_Some _ _ Hpath). cbn [bind].
  rewrite (Path_String_first _ _ _ _ Hiter). cbn [negb].
  destruct (strconv.Atoi _) as [result [e|]]; reflexivity.
Qed.

(** C9. A post count or a reputation whose text is the label
    followed by the decimal numeral of [z] with commas put in is
    read as [z]; a text that is not numeric once label and commas
    are stripped makes the extractor return 0 with an error. *)
Theorem numeric_fields_strip_separators :
  (forall (root : Node) (path : Path) (node : Node) (more : list Node)
          (text : string) (z : Z),
      Compile totalPosts_expr = Some path ->
      Iter path root = node :: more ->
      NodeString node = "Total Posts: " ++ text ->
      Spec.separated (Spec.decimal z) text ->
      in_int_range z ->
      getTotalPosts root = Ret (z, None)) /\
  (forall (root : Node) (path : Path) (node : Node) (more : list Node),
      Compile totalPosts_expr = Some path ->
      Iter path root = node :: more ->
      Spec.numeric (stripped "Total Posts: " (NodeString node)) = false ->
      getTotalPosts root
      = Ret (0, Some (New "cannot convert posts to integer"))) /\
  (forall (fc : ForumClient) (forumUserID : string) (fields : list Node)
          (last : Node) (text : string) (z : Z),
      reputation_fields fc forumUserID (fields ++ [last]) ->
      NodeString last = "Reputation: " ++ text ->
      Spec.separated (Spec.decimal z) text ->
      in_int_range z ->
      getReputation fc forumUserID = Ret (z, None)) /\
  (forall (fc : ForumClient) (forumUserID : string) (fields : list Node)
          (last : Node),
      reputation_fields fc forumUserID (fields ++ [last]) ->
      Spec.numeric (stripped "Reputation: " (NodeString last)) = false ->
      exists e,
        getReputation fc forumUserID
        = Ret (0, Some (Wrap e "cannot convert reputation to integer"))).
Proof.
  repeat split.
  - intros root path node more text z Hpath Hiter Htext Hsep Hz.
    rewrite (getTotalPosts_text _ _ _ _ Hpath Hiter), Htext, stripped_label.
    now rewrite (Replace_separated _ _ Hsep), (Atoi_decimal _ Hz).
  - intros root path node more Hpath Hiter Hnum.
    rewrite (getTotalPosts_text _ _ _ _ Hpath Hiter).
    now destruct (Atoi_not_numeric _ Hnum) as (v & e & ->).
  - intros fc uid fields last text z Hfields Htext Hsep Hz.
    rewrite (getReputation_fields _ _ _ Hfields), last_field.
    unfold reputation_of. rewrite Htext, stripped_label.
    now rewrite (Replace_separated _ _ Hsep), (Atoi_decimal _ Hz).
  - intros fc uid fields last Hfields Hnum.
    rewrite (getReputation_fields _ _ _ Hfields), last_field.
    unfold reputation_of.
    destruct (Atoi_not_numeric _ Hnum) as (v & e & ->). now exists e.
Qed.


End Extractors.

(** ** The poller *)

Section Poller.

Context {X : XmlPath}.
Variable id : string.

Lemma NewPostAlert_snoc (ticks : list ForumClient) (fc : ForumClient) :
  NewPostAlert id (ticks ++ [fc]) = tick id (NewPostAlert id ticks) fc.
Proof. unfold NewPostAlert. now rewrite fold_left_app. Qed.

Lemma NewPostAlert_app (ticks later : list ForumClient) :
  NewPostAlert id (ticks ++ later)
  = fold_left (tick id) later (NewPostAlert id ticks).
Proof. unfold NewPostAlert. now rewrite fold_left_app. Qed.

(** Once the goroutine has left its loop no tick changes anything. *)
Lemma ticks_after_stop (ticks : list ForumClient) (g : Goroutine) :
  status g <> Ticking -> fold_left (tick id) ticks g = g.
Proof.
  intros Hdead. induction ticks as [|fc ticks IH]; [reflexivity|].
  cbn [fold_left]. unfold tick at 2.
  destruct (status g); [contradiction | exact IH ..].
Qed.

Lemma callbacks_snoc_Extract (log : list Event) (url : string) :
  List.length (filter is_Callback (log ++ [Extract url]))
  = List.length (filter is_Callback log).
Proof. rewrite filter_app. cbn [filter is_Callback]. now rewrite app_nil_r. Qed.

Lemma callbacks_snoc_Callback (log : list Event) :
  List.length (filter is_Callback (log ++ [Callback]))
  = S (List.length (filter is_Callback log)).
Proof.
  rewrite filter_app, length_app. cbn [filter is_Callback List.length]. lia.
Qed.

(** A tick on which the extraction succeeds with [count] posts. *)
Lemma tick_observes (g : Goroutine) (fc : ForumClient) (count : Z) :
  status g = Ticking ->
  observes id fc count ->
  let g' := tick id g fc in
  status g' = Ticking /\
  (lastPostCount g = -1 ->
   lastPostCount g' = count /\ callbacks g' = callbacks g /\
   events g' = (events g ++ [Extract (member_url ++ id)])%list) /\
  (lastPostCount g <> -1 -> lastPostCount g < count ->
   lastPostCount g' = count /\ callbacks g' = S (callbacks g) /\
   events g' = (events g ++ [Extract (member_url ++ id); Callback])%list) /\
  (lastPostCount g <> -1 -> count <= lastPostCount g ->
   lastPostCount g' = lastPostCount g /\ callbacks g' = callbacks g /\
   events g' = (events g ++ [Extract (member_url ++ id)])%list).
Proof.
  intros Hlive (profile & Hpage & <-). unfold tick. rewrite Hlive.
  unfold iteration. rewrite Hpage. unfold callbacks.
  destruct (Z.eqb_spec (lastPostCount g) (-1)) as [Hinit|Harmed];
    [|destruct (Z.ltb_spec (lastPostCount g) (TotalPosts profile))];
    cbn [status lastPostCount events];
    rewrite ?callbacks_snoc_Callback, ?callbacks_snoc_Extract, <- ?app_assoc;
    repeat split; intros; try reflexivity; try lia.
Qed.

(** A tick on which the extraction fails outright. *)
Lemma tick_fails (g : Goroutine) (fc : ForumClient) :
  fails_outright id fc -> status (tick id g fc) <> Ticking.
Proof.
  intros Hfail. unfold tick. destruct (status g) eqn:Hs;
    [|rewrite Hs; discriminate ..].
  unfold iteration, GetUserProfilePage, getUserName.
  destruct Hfail as [[err ->]|(root & path & -> & Hpath & Hnone)];
    [discriminate|].
  rewrite (MustCompile_Some _ _ Hpath). cbn [bind].
  rewrite (Path_String_none _ _ Hnone). discriminate.
Qed.

(** Whatever the extraction does, a tick leaves the goroutine out of
    its loop with [lastPostCount] as it was, or the extraction
    succeeded in the loop. *)
Lemma tick_cases (g : Goroutine) (fc : ForumClient) :
  (status (tick id g fc) <> Ticking /\
   lastPostCount (tick id g fc) = lastPostCount g) \/
  (status g = Ticking /\ exists count, observes id fc count).
Proof.
  unfold tick. destruct (status g) eqn:Hs;
    [|left; rewrite Hs; split; [discriminate | reflexivity] ..].
  unfold iteration, observes.
  destruct (GetUserProfilePage fc (member_url ++ id)) as [[profile [e|]]|];
    [left; split; [discriminate | reflexivity]
    |right; split; [reflexivity | now exists (TotalPosts profile), profile]
    |left; split; [discriminate | reflexivity]].
Qed.

(** While no tick observes -1, a goroutine that has a baseline or has
    left its loop stays so, and its [lastPostCount] does not go down. *)
Lemma tick_keeps_baseline (g : Goroutine) (fc : ForumClient) :
  (forall count, observes id fc count -> count <> -1) ->
  status g <> Ticking \/ lastPostCount g <> -1 ->
  (status (tick id g fc) <> Ticking \/ lastPostCount (tick id g fc) <> -1) /\
  lastPostCount g <= lastPostCount (tick id g fc).
Proof.
  intros Hcount Hinv.
  destruct (tick_cases g fc) as [[Hdead Hsame]|[Hlive [count Hobs]]].
  - split; [now left | lia].
  - destruct Hinv as [Hdead|Harmed]; [congruence|].
    pose proof (Hcount _ Hobs) as Hc.
    destruct (tick_observes g fc count Hlive Hobs) as (_ & _ & Hup & Hkeep).
    destruct (Z.lt_ge_cases (lastPostCount g) count) as [Hlt|Hge].
    + destruct (Hup Harmed Hlt) as (-> & _). split; [now right | lia].
    + destruct (Hkeep Harmed Hge) as (-> & _). split; [now right | lia].
Qed.

Lemma ticks_keep_baseline (ticks : list ForumClient) :
  forall g,
    Forall (fun fc => forall count, observes id fc count -> count <> -1) ticks ->
    status g <> Ticking \/ lastPostCount g <> -1 ->
    (status (fold_left (tick id) ticks g) <> Ticking \/
     lastPostCount (fold_left (tick id) ticks g) <> -1) /\
    lastPostCount g <= lastPostCount (fold_left (tick id) ticks g).
Proof.
  induction ticks as [|fc ticks IH]; intros g Hcounts Hinv; cbn [fold_left].
  - split; [exact Hinv | lia].
  - inversion Hcounts as [|? ? Hfc Hrest]; subst.
    destruct (tick_keeps_baseline g fc Hfc Hinv) as [Hinv' Hle].
    destruct (IH _ Hrest Hinv') as [Hinv'' Hle']. split; [exact Hinv'' | lia].
Qed.

(** After its first tick the goroutine has a baseline or has left
    its loop, when that tick does not observe -1. *)
Lemma first_tick_arms (fc : ForumClient) :
  (forall count, observes id fc count -> count <> -1) ->
  status (tick id started fc) <> Ticking \/
  lastPostCount (tick id started fc) <> -1.
Proof.
  intros Hcount.
  destruct (tick_cases started fc) as [[Hdead _]|[Hlive [count Hobs]]];
    [now left|].
  destruct (tick_observes started fc count Hlive Hobs) as (_ & Hinit & _).
  destruct (Hinit eq_refl) as (-> & _). right. now apply Hcount.
Qed.

(** The goroutine against the poller of the specification: while no
    tick observes -1 they fire at the same ticks and hold the same
    baseline. *)
Lemma ticks_follow_poller (ticks : list ForumClient) (counts : list Z) :
  Forall2 (observes id) ticks counts ->
  Forall (fun count => count <> -1) counts ->
  forall (g : Goroutine) (s : Spec.PollerState),
    status g = Ticking ->
    lastPostCount g = stored s ->
    (s = Spec.Uninitialized \/ lastPostCount g <> -1) ->
    let g' := fold_left (tick id) ticks g in
    status g' = Ticking /\
    lastPostCount g' = stored (fst (Spec.run s counts)) /\
    events g' = (events g ++ events_of id (snd (Spec.run s counts)))%list /\
    (ticks <> [] -> lastPostCount g' <> -1).
Proof.
  induction 1 as [|fc count ticks counts Hobs _ IH];
    intros Hcounts g s Hlive Hs Hinv; cbv zeta in *.
  - cbn. rewrite app_nil_r. repeat split; trivial. congruence.
  - inversion Hcounts as [|? ? Hc Hrest]; subst.
    destruct (tick_observes g fc count Hlive Hobs)
      as (Hlive' & Hinit & Hup & Hkeep).
    cbn [fold_left Spec.run fst snd events_of flat_map].
    assert (Hstep : lastPostCount (tick id g fc)
                    = stored (fst (Spec.on_tick s count)) /\
                    events (tick id g fc)
                    = (events g ++ Extract (member_url ++ id)
                         :: (if snd (Spec.on_tick s count)
                             then [Callback] else []))%list /\
                    lastPostCount (tick id g fc) <> -1).
    { destruct s as [|baseline]; cbn [stored Spec.on_tick fst snd] in *.
      - destruct (Hinit Hs) as (-> & _ & ->). now repeat split.
      - destruct Hinv as [|Harmed]; [discriminate|]. rewrite <- Hs.
        destruct (Z.ltb_spec (lastPostCount g) count) as [Hlt|Hge];
          cbn [fst snd stored].
        + destruct (Hup Harmed Hlt) as (-> & _ & ->). now repeat split.
        + destruct (Hkeep Harmed Hge) as (-> & _ & ->). now repeat split. }
    destruct Hstep as (Hlast & Hevents & Harmed).
    destruct (IH Hrest (tick id g fc) (fst (Spec.on_tick s count)) Hlive' Hlast
                (or_intror Harmed)) as (Hlive'' & Hlast' & Hevents' & Harmed').
    repeat split; trivial.
    + rewrite Hevents', Hevents, <- app_assoc. reflexivity.
    + intros _. destruct ticks as [|fc' ticks']; [exact Harmed|].
      apply Harmed'. discriminate.
Qed.

(** C3, as the code has it.  On ticks whose extraction succeeds: the
    first tick calls [fn] zero times and stores the observed count;
    a later tick, when no tick before it observed -1 (the value of
    [lastPostCount] that stands for no baseline), calls [fn] once
    and stores the observed count if that count is above the stored
    one, and otherwise calls nothing and stores nothing; the counts
    10, 10, 12, 12, 15 make two calls. *)
Theorem NewPostAlert_fires_on_increase :
  (forall (fc : ForumClient) (count : Z),
      observes id fc count ->
      let g := NewPostAlert id [fc] in
      callbacks g = 0%nat /\ lastPostCount g = count) /\
  (forall (ticks : list ForumClient) (counts : list Z) (fc : ForumClient)
          (count : Z),
      ticks <> [] ->
      Forall2 (observes id) ticks counts ->
      Forall (fun c => c <> -1) counts ->
      observes id fc count ->
      let g := NewPostAlert id ticks in
      let g' := NewPostAlert id (ticks ++ [fc]) in
      (lastPostCount g < count ->
       callbacks g' = S (callbacks g) /\ lastPostCount g' = count) /\
      (count <= lastPostCount g ->
       callbacks g' = callbacks g /\ lastPostCount g' = lastPostCount g)) /\
  (forall ticks : list ForumClient,
      Forall2 (observes id) ticks [10; 10; 12; 12; 15] ->
      callbacks (NewPostAlert id ticks) = 2%nat).
Proof.
  split; [|split].
  - intros fc count Hobs g.
    destruct (tick_observes started fc count eq_refl Hobs) as (_ & Hinit & _).
    destruct (Hinit eq_refl) as (Hlast & Hcalls & _). now split.
  - intros ticks counts fc count Hsome Hticks Hcounts Hobs g g'.
    destruct (ticks_follow_poller ticks counts Hticks Hcounts started
                Spec.Uninitialized eq_refl eq_refl (or_introl eq_refl))
      as (Hlive & _ & _ & Harmed).
    specialize (Harmed Hsome). subst g g'. rewrite NewPostAlert_snoc.
    fold (NewPostAlert id ticks) in Hlive, Harmed.
    destruct (tick_observes _ fc count Hlive Hobs) as (_ & _ & Hup & Hkeep).
    split.
    + intros Hlt. now destruct (Hup Harmed Hlt) as (-> & -> & _).
    + intros Hge. now destruct (Hkeep Harmed Hge) as (-> & -> & _).
  - intros ticks Hticks.
    assert (Hcounts : Forall (fun c => c <> -1) [10; 10; 12; 12; 15])
      by (repeat constructor; discriminate).
    destruct (ticks_follow_poller ticks _ Hticks Hcounts started
                Spec.Uninitialized eq_refl eq_refl (or_introl eq_refl))
      as (_ & _ & Hevents & _).
    unfold callbacks, NewPostAlert. rewrite Hevents. reflexivity.
Qed.

(** C5. When the extraction fails outright on a tick, by the error
    of the fetch or by a page without a username, the goroutine
    leaves its loop at that tick: whatever ticks follow, it ends in
    the same state with the same events, so with no extraction and
    no call of [fn] after the failed one. *)
Theorem poller_stops_after_failed_extraction (before after : list ForumClient)
    (fc : ForumClient) :
  fails_outright id fc ->
  let g := NewPostAlert id (before ++ [fc]) in
  status g <> Ticking /\
  NewPostAlert id (before ++ fc :: after) = g /\
  events (NewPostAlert id (before ++ fc :: after)) = events g.
Proof.
  intros Hfail g. subst g.
  assert (Hdead : status (NewPostAlert id (before ++ [fc])) <> Ticking)
    by (rewrite NewPostAlert_snoc; now apply tick_fails).
  assert (Hsame : NewPostAlert id (before ++ fc :: after)
                  = NewPostAlert id (before ++ [fc])).
  { change (fc :: after) with ([fc] ++ after)%list.
    rewrite app_assoc, NewPostAlert_app. now apply ticks_after_stop. }
  now rewrite Hsame.
Qed.

(** C6, as the code has it.  A tick that observes less than a stored
    [lastPostCount] other than -1 calls nothing and leaves it as it
    is; and when no tick observes -1, [lastPostCount] after the
    first tick never goes down over the ticks that follow. *)
Theorem baseline_not_lowered :
  (forall (g : Goroutine) (fc : ForumClient) (count : Z),
      status g = Ticking ->
      lastPostCount g <> -1 ->
      observes id fc count ->
      count < lastPostCount g ->
      callbacks (tick id g fc) = callbacks g /\
      lastPostCount (tick id g fc) = lastPostCount g) /\
  (forall (first : ForumClient) (ticks later : list ForumClient),
      Forall (fun fc => forall count, observes id fc count -> count <> -1)
             (first :: ticks ++ later) ->
      lastPostCount (NewPostAlert id (first :: ticks))
      <= lastPostCount (NewPostAlert id (first :: ticks ++ later))).
Proof.
  split.
  - intros g fc count Hlive Harmed Hobs Hlt.
    destruct (tick_observes g fc count Hlive Hobs) as (_ & _ & _ & Hkeep).
    destruct (Hkeep Harmed) as (-> & -> & _); [lia | now split].
  - intros first ticks later Hcounts.
    inversion Hcounts as [|? ? Hfirst Hrest]; subst.
    apply Forall_app in Hrest as [Hticks Hlater].
    change (first :: ticks ++ later)%list with ((first :: ticks) ++ later)%list.
    rewrite NewPostAlert_app.
    apply ticks_keep_baseline; [exact Hlater|].
    unfold NewPostAlert. cbn [fold_left].
    apply ticks_keep_baseline; [exact Hticks | now apply first_tick_arms].
Qed.

End Poller.

(** ** On tabulated documents *)

Module Examples.

Import Tabulated.

Local Existing Instance library.

Example Atoi_signs :
  strconv.Atoi "12345" = (12345, None) /\
  strconv.Atoi "-42" = (-42, None) /\
  strconv.Atoi "+7" = (7, None) /\
  strconv.Atoi "9223372036854775808"
  = (9223372036854775807,
     Some (NumError "Atoi" "9223372036854775808" strconv.ErrRange)) /\
  strconv.Atoi "12,345"
  = (0, Some (NumError "Atoi" "12,345" strconv.ErrSyntax)) /\
  strconv.Atoi "" = (0, Some (NumError "Atoi" "" strconv.ErrSyntax)).
Proof. repeat split. Qed.

Example Split_permalink :
  strings.Split "showthread.php?p=7#post7" "#" = ["showthread.php?p=7"; "post7"]
  /\ strings.Split "showthread.php?p=7" "#" = ["showthread.php?p=7"].
Proof. split; reflexivity. Qed.

Example whole_profile :
  GetUserProfilePage (forum "Total Posts: 12,345") kalcor_url
  = Ret ({| UserName := "Kalcor"; JoinDate := "March 2009";
            TotalPosts := 12345; Reputation := -1234; BioText := "scripter";
            VisitorMessages :=
              [ {| VisitorMessage_UserName := "ann"; Message := "hi" |};
                {| VisitorMessage_UserName := "bob"; Message := "hello" |};
                {| VisitorMessage_UserName := "ann"; Message := "hi" |} ];
            Errors := [] |}, None).
Proof. reflexivity. Qed.

Lemma GetUserProfilePage_without_username_witness :
  GetUserProfilePage (serve [(kalcor_url, blank)]) kalcor_url
  = Ret (zero_UserProfile,
         Some (Wrap (New "user name xmlpath did not return a result")
                    "url did not lead to a valid user page")).
Proof.
  apply (GetUserProfilePage_without_username
           (serve [(kalcor_url, blank)]) kalcor_url blank userName_expr);
    reflexivity.
Defined.

(** A member page whose post count is no number, on a forum whose
    search page is missing: two fields fail. *)
Lemma Errors_collects_field_failures_witness :
  exists profile,
    GetUserProfilePage (posts_only "Total Posts: n/a") kalcor_url
    = Ret (profile, None) /\
    Errors profile
    = [New "cannot convert posts to integer";
       Wrap (New "no such page") "cannot get user's posts"] /\
    TotalPosts profile = 0 /\ Reputation profile = 0 /\
    JoinDate profile = "March 2009" /\ BioText profile = "scripter".
Proof.
  destruct (Errors_collects_field_failures
              (posts_only "Total Posts: n/a") kalcor_url
              (member "Kalcor" "Total Posts: n/a")
              "Kalcor" "March 2009" "scripter" 0 0
              [ {| VisitorMessage_UserName := "ann"; Message := "hi" |};
                {| VisitorMessage_UserName := "bob"; Message := "hello" |};
                {| VisitorMessage_UserName := "ann"; Message := "hi" |} ]
              None (Some (New "cannot convert posts to integer"))
              (Some (Wrap (New "no such page") "cannot get user's posts"))
              None None eq_refl eq_refl eq_refl eq_refl eq_refl eq_refl eq_refl)
    as (profile & Hpage & Herrors & _ & (_ & Hjd & _ & _ & Hbio & _)
        & _ & Hposts & Hrep & _).
  exists profile. repeat split; auto.
Defined.

Lemma GetUserProfilePage_panics_with_the_lookup_witness :
  GetUserProfilePage forum_without_fragment kalcor_url
  = Panic "runtime error: index out of range".
Proof.
  exact (GetUserProfilePage_panics_with_the_lookup forum_without_fragment
           kalcor_url (member "Kalcor" "Total Posts: 10")
           "Kalcor" "March 2009" 10 None None
           "runtime error: index out of range"
           eq_refl eq_refl eq_refl eq_refl eq_refl).
Defined.

Lemma getReputation_panics_without_fragment_witness :
  getReputation forum_without_fragment "3"
  = Panic "runtime error: index out of range".
Proof.
  apply (getReputation_panics_without_fragment forum_without_fragment "3"
           (search "showthread.php?p=7")
           (thread "post7" ["Reputation: 1"])
           postLink_expr (leaf "showthread.php?p=7") []);
    reflexivity.
Defined.

(** The panic of the lookup unwinds through the profile page and
    ends the goroutine of the poller. *)
Example panic_reaches_the_poller :
  GetUserProfilePage forum_without_fragment kalcor_url
  = Panic "runtime error: index out of range" /\
  status (NewPostAlert "3" [forum_without_fragment]) = Panicked.
Proof. split; reflexivity. Qed.

(** C7 fails on a page whose heading holds only a blank and a line
    feed: the profile is returned without an error and its
    [UserName] is empty. *)
Lemma blank_heading_gives_empty_UserName :
  exists profile,
    GetUserProfilePage forum_blank_name kalcor_url = Ret (profile, None) /\
    UserName profile = EmptyString.
Proof. eexists. split; reflexivity. Qed.

Lemma returned_UserName_is_trimmed_heading_witness :
  exists root path heading more,
    GetHTMLRoot forum_blank_name kalcor_url = inl root /\
    Compile userName_expr = Some path /\
    Iter path root = heading :: more /\
    EmptyString = strings.Trim (NodeString heading) (LF ++ " ").
Proof.
  exact (returned_UserName_is_trimmed_heading forum_blank_name kalcor_url
           _ eq_refl).
Defined.

Lemma reputation_fields_forum (posts : string) :
  reputation_fields (forum posts) "3"
    ([leaf "Reputation: 1"] ++ [leaf "Reputation: -1,234"]).
Proof.
  exists (search "showthread.php?p=7#post7"), postLink_expr,
    (leaf "showthread.php?p=7#post7"), [],
    (thread "post7" ["Reputation: 1"; "Reputation: -1,234"]),
    "showthread.php?p=7", "post7", [], (reputation_expr "post7").
  repeat split.
Defined.

Lemma getReputation_takes_last_label_witness :
  getReputation (forum "Total Posts: 10") "3" = Ret (-1234, None).
Proof.
  exact (getReputation_takes_last_label (forum "Total Posts: 10") "3"
           [leaf "Reputation: 1"] (leaf "Reputation: -1,234")
           (reputation_fields_forum _)).
Defined.

Lemma separated_12_345 : Spec.separated "12345" "12,345".
Proof.
  repeat first [ apply Spec.separated_end
               | apply Spec.separated_byte; [discriminate|]
               | apply Spec.separated_comma ].
Defined.

Lemma separated_minus_1_234 : Spec.separated "-1234" "-1,234".
Proof.
  repeat first [ apply Spec.separated_end
               | apply Spec.separated_byte; [discriminate|]
               | apply Spec.separated_comma ].
Defined.

Lemma in_int_range_small (z : Z) :
  (Z.abs z <? 100000) = true -> in_int_range z.
Proof.
  intros H. apply Z.ltb_lt in H. unfold in_int_range.
  change strconv.cutoff with 9223372036854775808. lia.
Defined.

Lemma reputation_fields_odd_label :
  reputation_fields forum_odd_label "3" ([] ++ [leaf "Reputation: high"]).
Proof.
  exists (search "showthread.php?p=7#post7"), postLink_expr,
    (leaf "showthread.php?p=7#post7"), [],
    (thread "post7" ["Reputation: high"]),
    "showthread.php?p=7", "post7", [], (reputation_expr "post7").
  repeat split.
Defined.

Lemma numeric_fields_strip_separators_witness :
  getTotalPosts (member "Kalcor" "Total Posts: 12,345") = Ret (12345, None) /\
  getTotalPosts (member "Kalcor" "Total Posts: n/a")
  = Ret (0, Some (New "cannot convert posts to integer")) /\
  getReputation (forum "Total Posts: 10") "3" = Ret (-1234, None) /\
  exists e,
    getReputation forum_odd_label "3"
    = Ret (0, Some (Wrap e "cannot convert reputation to integer")).
Proof.
  destruct numeric_fields_strip_separators
    as (Hposts & Hposts_fail & Hrep & Hrep_fail).
  split; [|split; [|split]].
  - exact (Hposts (member "Kalcor" "Total Posts: 12,345") totalPosts_expr
             (leaf "Total Posts: 12,345") [] "12,345" 12345
             eq_refl eq_refl eq_refl separated_12_345
             (in_int_range_small 12345 eq_refl)).
  - exact (Hposts_fail (member "Kalcor" "Total Posts: n/a") totalPosts_expr
             (leaf "Total Posts: n/a") [] eq_refl eq_refl eq_refl).
  - exact (Hrep (forum "Total Posts: 10") "3" [leaf "Reputation: 1"]
             (leaf "Reputation: -1,234") "-1,234" (-1234)
             (reputation_fields_forum _) eq_refl separated_minus_1_234
             (in_int_range_small (-1234) eq_refl)).
  - exact (Hrep_fail forum_odd_label "3" [] (leaf "Reputation: high")
             reputation_fields_odd_label eq_refl).
Defined.


Lemma observes_10 : observes "3" (showing "10") 10.
Proof. observed. Defined.
Lemma observes_12 : observes "3" (showing "12") 12.
Proof. observed. Defined.
Lemma observes_15 : observes "3" (showing "15") 15.
Proof. observed. Defined.
Lemma observes_9 : observes "3" (showing "9") 9.
Proof. observed. Defined.

Lemma NewPostAlert_fires_on_increase_witness :
  (callbacks (NewPostAlert "3" [showing "10"]) = 0%nat /\
   lastPostCount (NewPostAlert "3" [showing "10"]) = 10) /\
  (callbacks (NewPostAlert "3" ([showing "10"] ++ [showing "12"])) = 1%nat /\
   lastPostCount (NewPostAlert "3" ([showing "10"] ++ [showing "12"])) = 12) /\
  (callbacks (NewPostAlert "3" ([showing "12"] ++ [showing "9"])) = 0%nat /\
   lastPostCount (NewPostAlert "3" ([showing "12"] ++ [showing "9"])) = 12) /\
  callbacks (NewPostAlert "3"
               [showing "10"; showing "10"; showing "12"; showing "12";
                showing "15"]) = 2%nat.
Proof.
  destruct (NewPostAlert_fires_on_increase "3") as (Hfirst & Hlater & Hfive).
  split; [|split; [|split]].
  - exact (Hfirst (showing "10") 10 observes_10).
  - refine (proj1 (Hlater [showing "10"] [10] (showing "12") 12 _ _ _
                     observes_12) _).
    + discriminate.
    + repeat constructor. exact observes_10.
    + repeat constructor. discriminate.
    + reflexivity.
  - refine (proj2 (Hlater [showing "12"] [12] (showing "9") 9 _ _ _
                     observes_9) _).
    + discriminate.
    + repeat constructor. exact observes_12.
    + repeat constructor. discriminate.
    + discriminate.
  - apply Hfive.
    repeat constructor;
      first [exact observes_10 | exact observes_12 | exact observes_15].
Defined.

(** C3 fails when the first tick observes -1: the stored value is
    then -1, the second tick observes 5, which is above it, and [fn]
    is not called. *)
Lemma no_call_after_a_count_of_minus_one :
  observes "3" (showing "-1") (-1) /\
  observes "3" (showing "5") 5 /\
  lastPostCount (NewPostAlert "3" [showing "-1"]) = -1 /\
  callbacks (NewPostAlert "3" [showing "-1"; showing "5"]) = 0%nat /\
  lastPostCount (NewPostAlert "3" [showing "-1"; showing "5"]) = 5.
Proof. repeat split; try observed. Qed.

Lemma poller_stops_after_failed_extraction_witness :
  status (NewPostAlert "3" ([showing "10"] ++ [down])) <> Ticking /\
  NewPostAlert "3" ([showing "10"] ++ down :: [showing "12"; showing "15"])
  = NewPostAlert "3" ([showing "10"] ++ [down]) /\
  events (NewPostAlert "3"
            ([showing "10"] ++ down :: [showing "12"; showing "15"]))
  = events (NewPostAlert "3" ([showing "10"] ++ [down])).
Proof.
  apply (poller_stops_after_failed_extraction "3" [showing "10"]
           [showing "12"; showing "15"] down).
  left. exists (New "no such page"). reflexivity.
Defined.

Lemma baseline_not_lowered_witness :
  (callbacks (tick "3" (NewPostAlert "3" [showing "12"]) (showing "9"))
   = callbacks (NewPostAlert "3" [showing "12"]) /\
   lastPostCount (tick "3" (NewPostAlert "3" [showing "12"]) (showing "9"))
   = 12) /\
  lastPostCount (NewPostAlert "3" [showing "12"])
  <= lastPostCount (NewPostAlert "3" (showing "12" :: [] ++ [showing "9"])).
Proof.
  destruct (baseline_not_lowered "3") as (Hless & Hmono).
  split.
  - apply (Hless (NewPostAlert "3" [showing "12"]) (showing "9") 9).
    + reflexivity.
    + discriminate.
    + exact observes_9.
    + reflexivity.
  - apply (Hmono (showing "12") [] [showing "9"]).
    repeat constructor; never_minus_one.
Defined.

(** C6 fails once a count of -1 has been stored: after the counts -5
    and -1 the stored value is -1, the third tick observes -7, which
    is below it, and the stored value goes down to -7. *)
Lemma baseline_lowered_below_minus_one :
  observes "3" (showing "-7") (-7) /\
  lastPostCount (NewPostAlert "3" [showing "-5"; showing "-1"]) = -1 /\
  lastPostCount (NewPostAlert "3" [showing "-5"; showing "-1"; showing "-7"])
  = -7.
Proof. repeat split; try observed. Qed.

End Examples.

(** * Further properties of the extractors *)

(** ** More on strings and numerals *)

Lemma append_empty (s : string) : s ++ EmptyString = s.
Proof. induction s as [|c s IH]; cbn [append]; congruence. Qed.

Lemma Split_nonempty (s : string) (sep : ascii) : strings.Split s sep <> [].
Proof.
  induction s as [|c s IH]; cbn [strings.Split]; [discriminate|].
  destruct (Ascii.eqb c sep); [discriminate|].
  destruct (strings.Split s sep); [contradiction | discriminate].
Qed.

(** A string with a single piece holds no separator. *)
Lemma Split_single (s : string) (sep : ascii) :
  nth_error (strings.Split s sep) 1 = None ->
  strings.contains_byte s sep = false.
Proof.
  induction s as [|c s IH]; cbn [strings.Split strings.contains_byte];
    [reflexivity|].
  rewrite (Ascii.eqb_sym sep c).
  destruct (Ascii.eqb c sep).
  - pose proof (Split_nonempty s sep).
    destruct (strings.Split s sep); [contradiction | discriminate].
  - pose proof (Split_nonempty s sep).
    destruct (strings.Split s sep) as [|piece rest]; [contradiction|].
    cbn [nth_error orb]. exact IH.
Qed.

(** The first piece ends at the first separator. *)
Lemma Split_at_separator (pre rest : string) (sep : ascii) :
  strings.contains_byte pre sep = false ->
  strings.Split (pre ++ String sep rest) sep = pre :: strings.Split rest sep.
Proof.
  induction pre as [|c pre IH]; cbn [append strings.Split strings.contains_byte].
  - intros _. now rewrite Ascii.eqb_refl.
  - rewrite (Ascii.eqb_sym sep c). intros H.
    apply orb_false_iff in H as [-> H]. now rewrite (IH H).
Qed.

Lemma TrimLeft_head (s cutset : string) (c : ascii) (rest : string) :
  strings.TrimLeft s cutset = String c rest ->
  strings.contains_byte cutset c = false.
Proof.
  induction s as [|a s IH]; cbn [strings.TrimLeft]; [discriminate|].
  destruct (strings.contains_byte cutset a) eqn:Ha; [exact IH|].
  now intros [= <- _].
Qed.

Lemma TrimRight_head (s cutset : string) (c : ascii) (rest : string) :
  strings.TrimRight s cutset = String c rest -> exists rest', s = String c rest'.
Proof.
  destruct s as [|a s]; cbn [strings.TrimRight]; [discriminate|].
  destruct (strings.TrimRight s cutset);
    [destruct (strings.contains_byte cutset a); [discriminate|]|];
    intros [= <- _]; eauto.
Qed.

Lemma TrimRight_last (s cutset : string) :
  forall (pre : string) (c : ascii),
    strings.TrimRight s cutset = pre ++ String c EmptyString ->
    strings.contains_byte cutset c = false.
Proof.
  induction s as [|a s IH]; intros pre c; cbn [strings.TrimRight].
  - now destruct pre.
  - destruct (strings.TrimRight s cutset) as [|k kept] eqn:Hkept.
    + destruct (strings.contains_byte cutset a) eqn:Ha; [now destruct pre|].
      destruct pre as [|b pre]; cbn [append].
      * now intros [= <-].
      * intros [= _ H]. now destruct pre.
    + destruct pre as [|b pre]; cbn [append]; [discriminate|].
      intros [= _ H]. exact (IH pre c H).
Qed.

(** What [Trim] returns neither starts nor ends with a byte of the
    cutset. *)
Lemma Trim_outer_bytes (s cutset : string) (c : ascii) :
  strings.contains_byte cutset c = true ->
  (forall rest, strings.Trim s cutset <> String c rest) /\
  (forall pre, strings.Trim s cutset <> pre ++ String c EmptyString).
Proof.
  intros Hc. unfold strings.Trim. split.
  - intros rest H. destruct (TrimRight_head _ _ _ _ H) as [rest' H'].
    apply TrimLeft_head in H'. congruence.
  - intros pre H. apply TrimRight_last in H. congruence.
Qed.

Lemma digits_of_uint_acc_overflow (d : uint) :
  forall acc,
    Zpos acc <= strconv.maxUint64 ->
    strconv.maxUint64 < Zpos (Pos.of_uint_acc d acc) ->
    strconv.digits (NilEmpty.string_of_uint d) (Zpos acc)
    = inr strconv.OutOfRange.
Proof.
  induction d as [|d IH|d IH|d IH|d IH|d IH|d IH|d IH|d IH|d IH|d IH];
    intros acc Hacc Hover;
    cbn [Pos.of_uint_acc NilEmpty.string_of_uint strconv.digits] in *;
    [lia | ..].
  all: eval_digit.
  all: match goal with
       | H : _ < Zpos (Pos.of_uint_acc ?l ?a) |- _ =>
           replace (Zpos acc * 10 + _) with (Zpos a) by lia;
           destruct (Z.ltb_spec strconv.maxUint64 (Zpos a));
           [reflexivity | now apply IH]
       end.
Qed.

Lemma digits_of_uint_overflow (d : uint) :
  strconv.maxUint64 < Z.of_N (Pos.of_uint d) ->
  strconv.digits (NilEmpty.string_of_uint d) 0 = inr strconv.OutOfRange.
Proof.
  induction d as [|d IH|d IH|d IH|d IH|d IH|d IH|d IH|d IH|d IH|d IH];
    intros Hover;
    cbn [Pos.of_uint NilEmpty.string_of_uint strconv.digits] in *;
    [discriminate | ..].
  all: eval_digit.
  all: cbn [Z.mul Z.add Z.of_N] in *.
  all: try (change (strconv.maxUint64 <? 0) with false; cbv iota; now apply IH).
  all: match goal with
       | |- context [strconv.maxUint64 <? ?k] =>
           change (strconv.maxUint64 <? k) with false; cbv iota
       end.
  all: apply digits_of_uint_acc_overflow; [discriminate | assumption].
Qed.

(** A numeral outside the range of [int] is a range error. *)
Lemma Atoi_decimal_out_of_range (z : Z) :
  ~ (- strconv.cutoff <= z < strconv.cutoff) ->
  exists v,
    strconv.Atoi (Spec.decimal z)
    = (v, Some (NumError "Atoi" (Spec.decimal z) strconv.ErrRange)).
Proof.
  intros Hout. pose proof cutoff_le_maxUint64 as Hmax.
  assert (Hcut : 0 < strconv.cutoff) by reflexivity.
  unfold Spec.decimal.
  destruct z as [|p|p]; [lia | ..]; cbn [Z.to_int NilZero.string_of_int];
    pose proof (DecimalPos.Unsigned.of_to p) as Hp;
    pose proof (DecimalPos.Unsigned.to_uint_nonnil p) as Hnil;
    rewrite NilZero_string_of_uint by assumption;
    set (d := Pos.to_uint p) in *.
  - assert (Hdigits : strconv.digits (NilEmpty.string_of_uint d) 0
                      = inl (Z.pos p) \/
                      strconv.digits (NilEmpty.string_of_uint d) 0
                      = inr strconv.OutOfRange).
    { destruct (Z.le_gt_cases (Z.pos p) strconv.maxUint64).
      - left. rewrite digits_of_uint by (rewrite Hp; assumption).
        now rewrite Hp.
      - right. apply digits_of_uint_overflow. rewrite Hp. assumption. }
    destruct d eqn:Hd; [congruence | ..];
      cbn [NilEmpty.string_of_uint] in *; unfold strconv.Atoi;
      cbn [Ascii.eqb Bool.eqb orb negb andb]; cbv iota;
      (destruct Hdigits as [-> | ->]; [|eauto]);
      (destruct (Z.leb_spec strconv.cutoff (Z.pos p)); [eauto | lia]).
  - assert (Hdigits : strconv.digits (NilEmpty.string_of_uint d) 0
                      = inl (Z.pos p) \/
                      strconv.digits (NilEmpty.string_of_uint d) 0
                      = inr strconv.OutOfRange).
    { destruct (Z.le_gt_cases (Z.pos p) strconv.maxUint64).
      - left. rewrite digits_of_uint by (rewrite Hp; assumption).
        now rewrite Hp.
      - right. apply digits_of_uint_overflow. rewrite Hp. assumption. }
    unfold strconv.Atoi. cbn [Ascii.eqb Bool.eqb orb negb andb]. cbv iota.
    destruct (NilEmpty.string_of_uint d) eqn:Hs; [now destruct d|].
    destruct Hdigits as [-> | ->]; [|eauto].
    destruct (Z.ltb_spec strconv.cutoff (Z.pos p)); [eauto | lia].
Qed.

(** ** The profile page, read backwards *)

Section Outcomes.

Context {X : XmlPath}.

(** A profile returned without an error is assembled from what the
    username extractor and the five field extractors returned. *)
Lemma GetUserProfilePage_returned (fc : ForumClient) (url : string)
    (profile : UserProfile) :
  GetUserProfilePage fc url = Ret (profile, None) ->
  exists root name jd ejd tp etp rep erep bio ebio vm evm,
    GetHTMLRoot fc url = inl root /\
    getUserName root = Ret (name, None) /\
    getJoinDate root = Ret (jd, ejd) /\
    getTotalPosts root = Ret (tp, etp) /\
    getReputation fc (strings.TrimPrefix url member_url) = Ret (rep, erep) /\
    getUserBio root = Ret (bio, ebio) /\
    getFirstTenUserVisitorMessages root = Ret (vm, evm) /\
    profile = {| UserName := name; JoinDate := jd; TotalPosts := tp;
                 Reputation := rep; BioText := bio; VisitorMessages := vm;
                 Errors := failures [ejd; etp; erep; ebio; evm] |}.
Proof.
  intros Hpage. pose proof Hpage as Hrun. unfold GetUserProfilePage in Hrun.
  destruct (GetHTMLRoot fc url) as [root|err] eqn:Hroot; [|discriminate].
  destruct (getUserName root) as [[name [e|]]|] eqn:Hname; [discriminate | |discriminate].
  cbn [bind] in Hrun.
  destruct (getJoinDate root) as [[jd ejd]|] eqn:Hjd; [|discriminate].
  cbn [bind] in Hrun.
  destruct (getTotalPosts root) as [[tp etp]|] eqn:Htp; [|discriminate].
  cbn [bind] in Hrun.
  destruct (getReputation fc _) as [[rep erep]|] eqn:Hrep; [|discriminate].
  cbn [bind] in Hrun.
  destruct (getUserBio root) as [[bio ebio]|] eqn:Hbio; [|discriminate].
  cbn [bind] in Hrun.
  destruct (getFirstTenUserVisitorMessages root) as [[vm evm]|] eqn:Hvm;
    [|discriminate].
  clear Hrun.
  exists root, name, jd, ejd, tp, etp, rep, erep, bio, ebio, vm, evm.
  repeat split; trivial.
  pose proof (GetUserProfilePage_fields fc url root name jd bio tp rep vm
                ejd etp erep ebio evm Hroot Hname Hjd Htp Hrep Hbio Hvm) as H.
  congruence.
Qed.

Lemma getUserName_returned (root : Node) (name : string) :
  getUserName root = Ret (name, None) ->
  exists path heading more,
    Compile userName_expr = Some path /\
    Iter path root = heading :: more /\
    name = strings.Trim (NodeString heading) (LF ++ " ").
Proof.
  unfold getUserName, MustCompile, Path_String.
  destruct (Compile userName_expr) as [path|] eqn:Hpath; [|discriminate].
  cbn [bind].
  destruct (Iter path root) as [|heading more] eqn:Hiter; [discriminate|].
  cbn [negb]. intros [= <-]. now exists path, heading, more.
Qed.

Lemma failures_length (errs : list (option error)) :
  (List.length (failures errs) <= List.length errs)%nat.
Proof.
  unfold failures.
  induction errs as [|[e|] errs IH]; simpl; lia.
Qed.

(** X1. An error of [GetUserProfilePage] always comes with the zero
    profile, and it is one of two: the wrapped error of the fetch, or
    the wrapped error of the username expression selecting nothing. *)
Theorem GetUserProfilePage_error_is_fatal (fc : ForumClient) (url : string)
    (profile : UserProfile) (err : error) :
  GetUserProfilePage fc url = Ret (profile, Some err) ->
  profile = zero_UserProfile /\
  ((exists cause,
       GetHTMLRoot fc url = inr cause /\
       err = Wrap cause "failed to get HTML root for user page") \/
   (exists root path,
       GetHTMLRoot fc url = inl root /\
       Compile userName_expr = Some path /\
       Iter path root = [] /\
       err = Wrap (New "user name xmlpath did not return a result")
                  "url did not lead to a valid user page")).
Proof.
  unfold GetUserProfilePage, getUserName, MustCompile, Path_String.
  destruct (GetHTMLRoot fc url) as [root|cause] eqn:Hroot.
  - destruct (Compile userName_expr) as [path|] eqn:Hpath; [|discriminate].
    cbn [bind]. destruct (Iter path root) as [|heading more] eqn:Hiter.
    + cbn [negb bind]. intros [= <- <-]. split; [reflexivity|].
      right. now exists root, path.
    + cbn [negb bind].
      destruct (getJoinDate root) as [[jd ejd]|]; [|discriminate]. cbn [bind].
      destruct (getTotalPosts root) as [[tp etp]|]; [|discriminate]. cbn [bind].
      destruct (getReputation fc _) as [[rep erep]|]; [|discriminate].
      cbn [bind].
      destruct (getUserBio root) as [[bio ebio]|]; [|discriminate]. cbn [bind].
      destruct (getFirstTenUserVisitorMessages root) as [[vm evm]|];
        discriminate.
  - intros [= <- <-]. split; [reflexivity|]. left. now exists cause.
Qed.

(** X2. A profile returned without an error holds at most five
    errors, and none of them exactly when each of the five field
    extractors returned without one. *)
Theorem Errors_at_most_five (fc : ForumClient) (url : string)
    (profile : UserProfile) :
  GetUserProfilePage fc url = Ret (profile, None) ->
  (List.length (Errors profile) <= 5)%nat /\
  exists root,
    GetHTMLRoot fc url = inl root /\
    (Errors profile = [] <->
     getJoinDate root = Ret (JoinDate profile, None) /\
     getTotalPosts root = Ret (TotalPosts profile, None) /\
     getReputation fc (strings.TrimPrefix url member_url)
     = Ret (Reputation profile, None) /\
     getUserBio root = Ret (BioText profile, None) /\
     getFirstTenUserVisitorMessages root = Ret (VisitorMessages profile, None)).
Proof.
  intros Hpage.
  destruct (GetUserProfilePage_returned _ _ _ Hpage)
    as (root & name & jd & ejd & tp & etp & rep & erep & bio & ebio & vm & evm
        & Hroot & Hname & Hjd & Htp & Hrep & Hbio & Hvm & ->).
  cbn [Errors JoinDate TotalPosts Reputation BioText VisitorMessages].
  split; [exact (failures_length [ejd; etp; erep; ebio; evm])|].
  exists root. split; [exact Hroot|].
  rewrite Hjd, Htp, Hrep, Hbio, Hvm. split.
  - destruct ejd, etp, erep, ebio, evm; cbn; try discriminate. now intros _.
  - intros ([= ->] & [= ->] & [= ->] & [= ->] & [= ->]). reflexivity.
Qed.

(** X3. The fields read from the member page do not depend on the
    reputation lookup: two calls that fetch the same document return
    the same username, join date, post count, bio and messages,
    whatever the two forums answer elsewhere. *)
Theorem page_fields_depend_on_the_page_only (fc fc' : ForumClient)
    (url url' : string) (profile profile' : UserProfile) :
  GetHTMLRoot fc url = GetHTMLRoot fc' url' ->
  GetUserProfilePage fc url = Ret (profile, None) ->
  GetUserProfilePage fc' url' = Ret (profile', None) ->
  UserName profile = UserName profile' /\
  JoinDate profile = JoinDate profile' /\
  TotalPosts profile = TotalPosts profile' /\
  BioText profile = BioText profile' /\
  VisitorMessages profile = VisitorMessages profile'.
Proof.
  intros Hsame Hpage Hpage'.
  destruct (GetUserProfilePage_returned _ _ _ Hpage)
    as (root & name & jd & ejd & tp & etp & rep & erep & bio & ebio & vm & evm
        & Hroot & Hname & Hjd & Htp & _ & Hbio & Hvm & ->).
  destruct (GetUserProfilePage_returned _ _ _ Hpage')
    as (root' & name' & jd' & ejd' & tp' & etp' & rep' & erep' & bio' & ebio'
        & vm' & evm' & Hroot' & Hname' & Hjd' & Htp' & _ & Hbio' & Hvm' & ->).
  assert (root' = root) by congruence. subst root'.
  cbn [UserName JoinDate TotalPosts BioText VisitorMessages].
  repeat split; congruence.
Qed.

Lemma MustCompile_literal (expr : string) :
  Compile expr <> None -> exists path, MustCompile expr = Ret path.
Proof.
  unfold MustCompile. destruct (Compile expr) as [path|]; [eauto | congruence].
Qed.

(** With the constant expressions accepted, the join date, the bio and
    the messages are extracted without a panic. *)
Lemma page_extractors_return (root : Node) :
  literals_compile ->
  (exists jd ejd, getJoinDate root = Ret (jd, ejd)) /\
  (exists bio ebio, getUserBio root = Ret (bio, ebio)) /\
  (exists vm evm, getFirstTenUserVisitorMessages root = Ret (vm, evm)).
Proof.
  intros Hlit. unfold literals_compile in Hlit.
  repeat match goal with
         | H : Forall _ (_ :: _) |- _ =>
             let Hhead := fresh "Hexpr" in
             inversion H as [|? ? Hhead ?]; subst; clear H;
             apply MustCompile_literal in Hhead
         end.
  repeat match goal with H : exists _, _ |- _ => destruct H as [? H] end.
  unfold getJoinDate, getUserBio, getFirstTenUserVisitorMessages.
  repeat match goal with H : MustCompile _ = Ret _ |- _ => rewrite H; clear H end.
  cbn [bind]. repeat split.
  - match goal with
    | |- context [Path_String ?p ?r] => destruct (Path_String p r) as [? []]
    end; cbn [negb]; eauto.
  - match goal with
    | |- context [Path_String ?p ?r] => destruct (Path_String p r) as [? []]
    end; cbn [negb]; eauto.
  - match goal with
    | |- context [Path_Exists ?p ?r] => destruct (Path_Exists p r)
    end; cbn [negb]; eauto.
Qed.

(** X4. With the constant expressions of the member page accepted by
    the library, [GetUserProfilePage] panics only where the reputation
    lookup does, with the same reason, after the page is fetched. *)
Theorem GetUserProfilePage_panics_only_in_getReputation (fc : ForumClient)
    (url reason : string) :
  literals_compile ->
  GetUserProfilePage fc url = Panic reason ->
  exists root,
    GetHTMLRoot fc url = inl root /\
    getReputation fc (strings.TrimPrefix url member_url) = Panic reason.
Proof.
  intros Hlit. unfold literals_compile in Hlit.
  repeat match goal with
         | H : Forall _ (_ :: _) |- _ =>
             let Hhead := fresh "Hexpr" in
             inversion H as [|? ? Hhead ?]; subst; clear H;
             apply MustCompile_literal in Hhead
         end.
  repeat match goal with H : exists _, _ |- _ => destruct H as [? H] end.
  unfold GetUserProfilePage, getUserName, getJoinDate, getTotalPosts,
    getUserBio, getFirstTenUserVisitorMessages.
  destruct (GetHTMLRoot fc url) as [root|cause]; [|discriminate].
  repeat match goal with H : MustCompile _ = Ret _ |- _ => rewrite H; clear H end.
  cbn [bind].
  repeat match goal with
         | |- context [Path_String ?p ?r] =>
             destruct (Path_String p r) as [? []]; cbn [negb bind]
         | |- context [strconv.Atoi ?s] =>
             destruct (strconv.Atoi s) as [? [?|]]; cbn [bind]
         | |- context [Path_Exists ?p ?r] =>
             destruct (Path_Exists p r); cbn [negb bind]
         end;
    try discriminate;
    (destruct (getReputation fc _) as [[rep erep]|reason'];
     cbn [bind]; [discriminate|]);
    intros [= <-]; now exists root.
Qed.

(** X5. The [UserName] of a profile returned without an error neither
    starts nor ends with a line feed or a blank. *)
Theorem UserName_has_no_outer_blanks (fc : ForumClient) (url : string)
    (profile : UserProfile) (c : ascii) :
  GetUserProfilePage fc url = Ret (profile, None) ->
  strings.contains_byte (LF ++ " ") c = true ->
  (forall rest, UserName profile <> String c rest) /\
  (forall pre, UserName profile <> pre ++ String c EmptyString).
Proof.
  intros Hpage Hc.
  destruct (GetUserProfilePage_returned _ _ _ Hpage)
    as (root & name & jd & ejd & tp & etp & rep & erep & bio & ebio & vm & evm
        & _ & Hname & _ & _ & _ & _ & _ & ->).
  destruct (getUserName_returned _ _ Hname) as (path & heading & more & _ & _ & ->).
  cbn [UserName]. now apply Trim_outer_bytes.
Qed.

(** X6. For the URL the poller builds from a user id, the reputation
    of a returned profile is what the lookup for that same id
    returned. *)
Theorem profile_reputation_is_of_the_same_id (fc : ForumClient) (id : string)
    (profile : UserProfile) :
  GetUserProfilePage fc (member_url ++ id) = Ret (profile, None) ->
  exists err,
    getReputation fc id = Ret (Reputation profile, err) /\
    (err = None \/ (Reputation profile = 0 /\
                    exists e, err = Some e /\ In e (Errors profile))).
Proof.
  intros Hpage.
  destruct (GetUserProfilePage_returned _ _ _ Hpage)
    as (root & name & jd & ejd & tp & etp & rep & erep & bio & ebio & vm & evm
        & _ & _ & _ & _ & Hrep & _ & _ & ->).
  rewrite TrimPrefix_app in Hrep. cbn [Reputation Errors].
  exists erep. split; [exact Hrep|].
  destruct erep as [e|]; [right | now left].
  split; [exact (getReputation_failed_zero _ _ _ _ Hrep)|].
  exists e. split; [reflexivity|].
  destruct ejd, etp; cbn; auto.
Qed.

End Outcomes.

(** ** The reputation lookup and the other extractors *)

Section Lookups.

Context {X : XmlPath}.

(** X7. Each hop of the reputation lookup that fails without a panic
    gives 0 with one error: the wrapped error of the first fetch; no
    permalink on the search page, whatever the forum serves elsewhere;
    the wrapped error of the second fetch; and, when the label query
    selects nothing, the wrapped syntax error of converting the empty
    string. *)
Theorem getReputation_soft_failures (fc : ForumClient) (forumUserID : string) :
  (forall cause,
      GetHTMLRoot fc (search_url forumUserID) = inr cause ->
      getReputation fc forumUserID
      = Ret (0, Some (Wrap cause "cannot get user's posts"))) /\
  (forall root path,
      GetHTMLRoot fc (search_url forumUserID) = inl root ->
      Compile postLink_expr = Some path ->
      Iter path root = [] ->
      getReputation fc forumUserID
      = Ret (0, Some (New "cannot get user posts"))) /\
  (forall root path link links cause,
      GetHTMLRoot fc (search_url forumUserID) = inl root ->
      Compile postLink_expr = Some path ->
      Iter path root = link :: links ->
      GetHTMLRoot fc (post_url (NodeString link)) = inr cause ->
      getReputation fc forumUserID
      = Ret (0, Some (Wrap cause "cannot get user's post in a topic"))) /\
  (reputation_fields fc forumUserID [] ->
   getReputation fc forumUserID
   = Ret (0, Some (Wrap (NumError "Atoi" EmptyString strconv.ErrSyntax)
                        "cannot convert reputation to integer"))).
Proof.
  repeat split.
  - intros cause Hsearch. unfold getReputation. now rewrite Hsearch.
  - intros root path Hsearch Hpath Hnone. unfold getReputation.
    rewrite Hsearch, (MustCompile_Some _ _ Hpath). cbn [bind].
    now rewrite (Path_String_none _ _ Hnone).
  - intros root path link links cause Hsearch Hpath Hlinks Hpost.
    unfold getReputation.
    rewrite Hsearch, (MustCompile_Some _ _ Hpath). cbn [bind].
    rewrite (Path_String_first _ _ _ _ Hlinks). cbn [negb]. now rewrite Hpost.
  - intros Hfields. now rewrite (getReputation_fields _ _ _ Hfields).
Qed.

(** X8. With the permalink expression accepted by the library, the
    lookup panics only after both fetches succeeded, and then because
    the permalink holds no [#] or because the library refuses the
    expression built from the fragment. *)
Theorem getReputation_panics_only_at_the_fragment (fc : ForumClient)
    (forumUserID reason : string) (path : Path) :
  Compile postLink_expr = Some path ->
  getReputation fc forumUserID = Panic reason ->
  exists root link links root',
    GetHTMLRoot fc (search_url forumUserID) = inl root /\
    Iter path root = link :: links /\
    GetHTMLRoot fc (post_url (NodeString link)) = inl root' /\
    (strings.contains_byte (NodeString link) "#" = false \/
     exists piece fragment pieces,
       strings.Split (NodeString link) "#" = piece :: fragment :: pieces /\
       Compile (reputation_expr fragment) = None).
Proof.
  intros Hpath. unfold getReputation.
  destruct (GetHTMLRoot fc (search_url forumUserID)) as [root|cause] eqn:Hsearch;
    [|discriminate].
  rewrite (MustCompile_Some _ _ Hpath). cbn [bind]. unfold Path_String.
  destruct (Iter path root) as [|link links] eqn:Hlinks; [discriminate|].
  cbn [negb].
  destruct (GetHTMLRoot fc (post_url (NodeString link))) as [root'|cause]
    eqn:Hpost; [|discriminate].
  intros Hpanic. exists root, link, links, root'. repeat split; trivial.
  unfold index in Hpanic.
  destruct (nth_error (strings.Split (NodeString link) "#") 1) as [fragment|]
    eqn:Hnth; [right | left; now apply Split_single].
  cbn [bind] in Hpanic. unfold MustCompile in Hpanic.
  destruct (Compile (reputation_expr fragment)) eqn:Hexpr.
  - cbn [bind] in Hpanic. now destruct (strconv.Atoi _) as [result [e|]].
  - destruct (strings.Split (NodeString link) "#") as [|piece [|fragment' pieces]];
      try discriminate.
    injection Hnth as ->. now exists piece, fragment, pieces.
Qed.

(** X9. The anchor the lookup searches is the text of the permalink
    between its first [#] and the next one, or the end: the reputation
    is read in the table of that id. *)
Theorem getReputation_reads_the_anchor_after_the_first_hash (fc : ForumClient)
    (forumUserID : string) (root root' : Node) (path labelPath : Path)
    (link : Node) (links : list Node) (pre anchor tail : string) :
  GetHTMLRoot fc (search_url forumUserID) = inl root ->
  Compile postLink_expr = Some path ->
  Iter path root = link :: links ->
  GetHTMLRoot fc (post_url (NodeString link)) = inl root' ->
  NodeString link = pre ++ String "#" (anchor ++ tail) ->
  strings.contains_byte pre "#" = false ->
  strings.contains_byte anchor "#" = false ->
  tail = EmptyString \/ (exists rest, tail = String "#" rest) ->
  Compile (reputation_expr anchor) = Some labelPath ->
  getReputation fc forumUserID
  = Ret (reputation_of
           (fold_left (fun _ node => NodeString node) (Iter labelPath root')
                      EmptyString)).
Proof.
  intros Hsearch Hpath Hlinks Hpost Hhref Hpre Hanchor Htail Hlabel.
  apply getReputation_fields.
  assert (Hsplit : exists pieces,
             strings.Split (NodeString link) "#" = pre :: anchor :: pieces).
  { rewrite Hhref, (Split_at_separator _ _ _ Hpre).
    destruct Htail as [-> | [rest ->]].
    - exists []. rewrite append_empty. f_equal.
      now apply Split_without_separator.
    - exists (strings.Split rest "#"). f_equal.
      now apply Split_at_separator. }
  destruct Hsplit as [pieces Hsplit].
  now exists root, path, link, links, root', pre, anchor, pieces, labelPath.
Qed.

(** X10. A post count or a reputation whose numeral, commas apart, is
    outside the range of [int] is not truncated: the extractor returns
    0 with an error, for the reputation the wrapped range error. *)
Theorem numerals_out_of_range_fail (z : Z) (text : string) :
  ~ in_int_range z ->
  Spec.separated (Spec.decimal z) text ->
  (forall (root : Node) (path : Path) (node : Node) (more : list Node),
      Compile totalPosts_expr = Some path ->
      Iter path root = node :: more ->
      NodeString node = "Total Posts: " ++ text ->
      getTotalPosts root
      = Ret (0, Some (New "cannot convert posts to integer"))) /\
  (forall (fc : ForumClient) (forumUserID : string) (fields : list Node)
          (last : Node),
      reputation_fields fc forumUserID (fields ++ [last]) ->
      NodeString last = "Reputation: " ++ text ->
      getReputation fc forumUserID
      = Ret (0, Some (Wrap (NumError "Atoi" (Spec.decimal z) strconv.ErrRange)
                           "cannot convert reputation to integer"))).
Proof.
  intros Hout Hsep. destruct (Atoi_decimal_out_of_range z Hout) as [v Hatoi].
  split.
  - intros root path node more Hpath Hiter Htext.
    rewrite (getTotalPosts_text _ _ _ _ Hpath Hiter), Htext, stripped_label.
    now rewrite (Replace_separated _ _ Hsep), Hatoi.
  - intros fc uid fields last Hfields Htext.
    rewrite (getReputation_fields _ _ _ Hfields), last_field.
    unfold reputation_of. rewrite Htext, stripped_label.
    now rewrite (Replace_separated _ _ Hsep), Hatoi.
Qed.

(** X11. The message extractor has no bound of ten: it returns as many
    messages as there are blocks with both an author and a body, and
    it comes with an error exactly when the message expression selects
    no block at all. *)
Theorem visitor_messages_count (root : Node) (mainPath userPath textPath : Path) :
  Compile messageList_expr = Some mainPath ->
  Compile messageUser_expr = Some userPath ->
  Compile messageText_expr = Some textPath ->
  exists result err,
    getFirstTenUserVisitorMessages root = Ret (result, err) /\
    List.length result
    = List.length (filter (well_formed userPath textPath) (Iter mainPath root)) /\
    (err = None <-> Iter mainPath root <> []) /\
    (forallb (well_formed userPath textPath) (Iter mainPath root) = true ->
     List.length result = List.length (Iter mainPath root)).
Proof.
  intros Hmain Huser Htext. unfold getFirstTenUserVisitorMessages.
  rewrite (MustCompile_Some _ _ Hmain), (MustCompile_Some _ _ Huser),
    (MustCompile_Some _ _ Htext).
  cbn [bind]. unfold Path_Exists.
  destruct (Iter mainPath root) as [|block blocks] eqn:Hiter; cbn [negb].
  - eexists _, _. split; [reflexivity|]. repeat split; try discriminate.
    congruence.
  - eexists _, _. split; [reflexivity|]. rewrite messageBlock_loop.
    rewrite app_nil_l, length_map. repeat split; try discriminate.
    intros Hall. now rewrite (forallb_filter_id _ _ Hall).
Qed.

End Lookups.

(** * Further properties of the poller *)

Section Alerts.

Context {X : XmlPath}.
Variable id : string.

Lemma callbacks_app (g : Goroutine) (log more : list Event) :
  events g = (log ++ more)%list ->
  callbacks g
  = (List.length (filter is_Callback log)
     + List.length (filter is_Callback more))%nat.
Proof. unfold callbacks. intros ->. now rewrite filter_app, length_app. Qed.

Lemma extractions_app (g : Goroutine) (log more : list Event) :
  events g = (log ++ more)%list ->
  extractions g
  = (List.length (filter is_Extract log)
     + List.length (filter is_Extract more))%nat.
Proof. unfold extractions. intros ->. now rewrite filter_app, length_app. Qed.

(** What one tick adds to the events: nothing, when the goroutine has
    left its loop; the extraction; or the extraction and a call of
    [fn], which needs a stored count other than -1. *)
Lemma tick_events (g : Goroutine) (fc : ForumClient) :
  tick id g fc = g \/
  events (tick id g fc) = (events g ++ [Extract (member_url ++ id)])%list \/
  (events (tick id g fc)
   = (events g ++ [Extract (member_url ++ id); Callback])%list /\
   lastPostCount g <> -1).
Proof.
  unfold tick. destruct (status g); [|now left ..]. right.
  unfold iteration.
  destruct (GetUserProfilePage fc (member_url ++ id)) as [[profile [e|]]|];
    [now left | | now left].
  destruct (Z.eqb_spec (lastPostCount g) (-1)); [now left|].
  destruct (lastPostCount g <? TotalPosts profile); [right | now left].
  cbn [events]. now rewrite <- app_assoc.
Qed.

(** The calls of [fn] stay behind the extractions by one at least,
    from the first extraction on. *)
Lemma tick_keeps_calls_behind (g : Goroutine) (fc : ForumClient) :
  (events g = [] /\ lastPostCount g = -1) \/
  (callbacks g < extractions g)%nat ->
  ((events (tick id g fc) = [] /\ lastPostCount (tick id g fc) = -1) \/
   (callbacks (tick id g fc) < extractions (tick id g fc))%nat) /\
  (extractions (tick id g fc) <= S (extractions g))%nat /\
  (Forall (fun e => e = Callback \/ e = Extract (member_url ++ id)) (events g) ->
   Forall (fun e => e = Callback \/ e = Extract (member_url ++ id))
          (events (tick id g fc))).
Proof.
  intros Hinv.
  destruct (tick_events g fc) as [-> | [Hone | [Htwo Harmed]]].
  - repeat split; [exact Hinv | lia | trivial].
  - rewrite (callbacks_app _ _ _ Hone), (extractions_app _ _ _ Hone), Hone.
    fold (callbacks g) (extractions g). cbn [filter is_Callback is_Extract List.length].
    repeat split; [right | lia |].
    + destruct Hinv as [[Hnil _] | Hlt]; [|lia].
      unfold callbacks, extractions. rewrite Hnil. cbn. lia.
    + intros Hall. apply Forall_app. split; [exact Hall|].
      apply Forall_cons; [now right | apply Forall_nil].
  - rewrite (callbacks_app _ _ _ Htwo), (extractions_app _ _ _ Htwo), Htwo.
    fold (callbacks g) (extractions g). cbn [filter is_Callback is_Extract List.length].
    destruct Hinv as [[_ Hinit] | Hlt]; [contradiction|].
    repeat split; [right; lia | lia |].
    intros Hall. apply Forall_app. split; [exact Hall|].
    apply Forall_cons; [now right|].
    apply Forall_cons; [now left | apply Forall_nil].
Qed.

Lemma ticks_keep_calls_behind (ticks : list ForumClient) :
  forall g,
    (events g = [] /\ lastPostCount g = -1) \/
    (callbacks g < extractions g)%nat ->
    Forall (fun e => e = Callback \/ e = Extract (member_url ++ id)) (events g) ->
    let g' := fold_left (tick id) ticks g in
    ((events g' = [] /\ lastPostCount g' = -1) \/
     (callbacks g' < extractions g')%nat) /\
    (extractions g' <= extractions g + List.length ticks)%nat /\
    Forall (fun e => e = Callback \/ e = Extract (member_url ++ id)) (events g').
Proof.
  induction ticks as [|fc ticks IH]; intros g Hinv Hall; cbn [fold_left List.length].
  - cbv zeta. repeat split; [exact Hinv | lia | exact Hall].
  - destruct (tick_keeps_calls_behind g fc Hinv) as (Hinv' & Hle & Hall').
    destruct (IH _ Hinv' (Hall' Hall)) as (Hinv'' & Hle' & Hall'').
    cbv zeta. repeat split; [exact Hinv'' | lia | exact Hall''].
Qed.

(** Over a whole run the goroutine extracts at most once per tick and
    only the member page of its user, and the calls of [fn] stay
    behind the extractions. *)
Theorem calls_stay_behind_extractions (ticks : list ForumClient) :
  let g := NewPostAlert id ticks in
  (extractions g <= List.length ticks)%nat /\
  (callbacks g <= pred (extractions g))%nat /\
  Forall (fun e => e = Callback \/ e = Extract (member_url ++ id)) (events g).
Proof.
  destruct (ticks_keep_calls_behind ticks started (or_introl (conj eq_refl eq_refl))
              (Forall_nil _)) as (Hinv & Hle & Hall).
  cbv zeta in *. fold (NewPostAlert id ticks) in Hinv, Hle, Hall.
  repeat split; [exact Hle | | exact Hall].
  destruct Hinv as [[Hnil _] | Hlt]; [|lia].
  unfold callbacks. rewrite Hnil. cbn. lia.
Qed.

(** X12. What one more tick adds to the events of a run, whatever the
    forum answers: nothing, when the goroutine has left its loop; or
    one extraction of the member page of its user; or that extraction
    followed by one call of [fn], and this never at the first tick.
    So a tick extracts at most once and calls [fn] at most once. *)
Theorem each_tick_extracts_and_calls_at_most_once (ticks : list ForumClient)
    (fc : ForumClient) :
  let g := NewPostAlert id ticks in
  let g' := NewPostAlert id (ticks ++ [fc]) in
  (status g <> Ticking /\ g' = g) \/
  (status g = Ticking /\
   events g' = (events g ++ [Extract (member_url ++ id)])%list) \/
  (status g = Ticking /\ ticks <> [] /\
   events g' = (events g ++ [Extract (member_url ++ id); Callback])%list).
Proof.
  cbv zeta. rewrite NewPostAlert_snoc.
  destruct (status (NewPostAlert id ticks)) eqn:Hstatus;
    [|left; split; [discriminate | unfold tick; now rewrite Hstatus] ..].
  right.
  assert (Hstarted : ticks = [] -> lastPostCount (NewPostAlert id ticks) = -1)
    by now intros ->.
  unfold tick. rewrite Hstatus. unfold iteration.
  destruct (GetUserProfilePage fc (member_url ++ id)) as [[profile [e|]]|];
    [now left | | now left].
  destruct (Z.eqb_spec (lastPostCount (NewPostAlert id ticks)) (-1))
    as [Hnone|Hsome]; [now left|].
  destruct (lastPostCount (NewPostAlert id ticks) <? TotalPosts profile);
    [right | now left].
  cbn [events]. rewrite <- app_assoc.
  repeat split. intros Hnil. now apply Hsome, Hstarted.
Qed.

Lemma tick_panics (g : Goroutine) (fc : ForumClient) (reason : string) :
  GetUserProfilePage fc (member_url ++ id) = Panic reason ->
  status (tick id g fc) <> Ticking.
Proof.
  intros Hpanic. unfold tick. destruct (status g) eqn:Hs;
    [|rewrite Hs; discriminate ..].
  unfold iteration. rewrite Hpanic. discriminate.
Qed.

(** X13. A panic of the extraction on a tick ends the goroutine as an
    error does: whatever ticks follow, its state and its events stay
    those right after that tick. *)
Theorem poller_stops_after_panic (before after : list ForumClient)
    (fc : ForumClient) (reason : string) :
  GetUserProfilePage fc (member_url ++ id) = Panic reason ->
  let g := NewPostAlert id (before ++ [fc]) in
  status g <> Ticking /\
  NewPostAlert id (before ++ fc :: after) = g.
Proof.
  intros Hpanic g. subst g.
  assert (Hdead : status (NewPostAlert id (before ++ [fc])) <> Ticking)
    by (rewrite NewPostAlert_snoc; now apply (tick_panics _ _ reason)).
  split; [exact Hdead|].
  change (fc :: after) with ([fc] ++ after)%list.
  rewrite app_assoc, NewPostAlert_app. now apply ticks_after_stop.
Qed.

Lemma run_Armed_max (counts : list Z) :
  forall baseline,
    fst (Spec.run (Spec.Armed baseline) counts)
    = Spec.Armed (fold_left Z.max counts baseline).
Proof.
  induction counts as [|count counts IH]; intros baseline;
    cbn [Spec.run fst fold_left Spec.on_tick]; [reflexivity|].
  destruct (Z.ltb_spec baseline count); cbn [fst]; rewrite IH; f_equal; f_equal; lia.
Qed.

(** X14. While every tick extracts and none observes -1, the stored
    count is the greatest count observed so far. *)
Theorem stored_count_is_the_maximum (first : ForumClient)
    (later : list ForumClient) (count : Z) (counts : list Z) :
  Forall2 (observes id) (first :: later) (count :: counts) ->
  Forall (fun c => c <> -1) (count :: counts) ->
  lastPostCount (NewPostAlert id (first :: later))
  = fold_left Z.max counts count.
Proof.
  intros Hticks Hcounts.
  destruct (ticks_follow_poller id _ _ Hticks Hcounts started
              Spec.Uninitialized eq_refl eq_refl (or_introl eq_refl))
    as (_ & Hlast & _).
  unfold NewPostAlert. rewrite Hlast.
  cbn [Spec.run fst Spec.on_tick]. now rewrite run_Armed_max.
Qed.

Lemma ticks_not_above (ticks : list ForumClient) (counts : list Z) :
  Forall2 (observes id) ticks counts ->
  forall g,
    status g = Ticking ->
    lastPostCount g <> -1 ->
    Forall (fun c => c <= lastPostCount g) counts ->
    let g' := fold_left (tick id) ticks g in
    status g' = Ticking /\
    lastPostCount g' = lastPostCount g /\
    callbacks g' = callbacks g.
Proof.
  induction 1 as [|fc count ticks counts Hobs _ IH];
    intros g Hlive Harmed Hbelow; cbv zeta; cbn [fold_left]; [now repeat split|].
  inversion Hbelow as [|? ? Hle Hrest]; subst.
  destruct (tick_observes id g fc count Hlive Hobs) as (Hlive' & _ & _ & Hkeep).
  destruct (Hkeep Harmed Hle) as (Hlast & Hcalls & _).
  destruct (IH (tick id g fc) Hlive') as (Hlive'' & Hlast' & Hcalls');
    [congruence | now rewrite Hlast |].
  cbv zeta in *. repeat split; congruence.
Qed.

(** X15. A post count that cannot be read does not stop the poller.
    With the constant expressions accepted, the page fetched, the
    username found and the reputation lookup returning, a tick on
    which [getTotalPosts] returns an error extracts a profile with 0
    posts.  When this is the first tick, the ticks that follow and
    observe no positive count call nothing, and the first tick that
    observes a positive count calls [fn] once and stores that count. *)
Theorem unreadable_first_count_alerts_at_first_positive_count
    (fc fc' : ForumClient) (between : list ForumClient) (root : Node)
    (name : string) (v rep count : Z) (e : error) (erep : option error)
    (counts : list Z) :
  literals_compile ->
  GetHTMLRoot fc (member_url ++ id) = inl root ->
  getUserName root = Ret (name, None) ->
  getTotalPosts root = Ret (v, Some e) ->
  getReputation fc id = Ret (rep, erep) ->
  Forall2 (observes id) between counts ->
  Forall (fun c => c <= 0) counts ->
  observes id fc' count ->
  0 < count ->
  (exists profile,
      GetUserProfilePage fc (member_url ++ id) = Ret (profile, None) /\
      TotalPosts profile = 0 /\ In e (Errors profile)) /\
  (status (NewPostAlert id (fc :: between)) = Ticking /\
   callbacks (NewPostAlert id (fc :: between)) = 0%nat /\
   lastPostCount (NewPostAlert id (fc :: between)) = 0) /\
  (status (NewPostAlert id (fc :: between ++ [fc'])) = Ticking /\
   callbacks (NewPostAlert id (fc :: between ++ [fc'])) = 1%nat /\
   lastPostCount (NewPostAlert id (fc :: between ++ [fc'])) = count).
Proof.
  intros Hlit Hroot Hname Hposts Hrep Hbetween Hbelow Hobs' Hpos.
  destruct (page_extractors_return root Hlit)
    as ((jd & ejd & Hjd) & (bio & ebio & Hbio) & (vm & evm & Hvm)).
  pose proof (getTotalPosts_failed_zero _ _ _ Hposts) as Hzero. subst v.
  assert (Hrep' : getReputation fc (strings.TrimPrefix (member_url ++ id) member_url)
                  = Ret (rep, erep)) by now rewrite TrimPrefix_app.
  pose proof (GetUserProfilePage_fields fc (member_url ++ id) root name jd bio 0
                rep vm ejd (Some e) erep ebio evm Hroot Hname Hjd Hposts Hrep'
                Hbio Hvm) as Hpage.
  assert (Hobs : observes id fc 0) by (eexists; split; [exact Hpage | reflexivity]).
  split.
  { eexists. split; [exact Hpage|]. split; [reflexivity|].
    cbn [Errors]. destruct ejd; simpl; auto. }
  destruct (tick_observes id started fc 0 eq_refl Hobs) as (Hlive & Hinit & _).
  destruct (Hinit eq_refl) as (Hlast & Hcalls & _).
  change (callbacks started) with 0%nat in Hcalls.
  destruct (ticks_not_above between counts Hbetween (tick id started fc) Hlive)
    as (Hlive' & Hlast' & Hcalls');
    [rewrite Hlast; discriminate | now rewrite Hlast |].
  cbv zeta in *.
  change (NewPostAlert id (fc :: between))
    with (fold_left (tick id) between (tick id started fc)).
  split; [repeat split; congruence|].
  change (fc :: between ++ [fc'])%list with ((fc :: between) ++ [fc'])%list.
  rewrite NewPostAlert_snoc.
  change (NewPostAlert id (fc :: between))
    with (fold_left (tick id) between (tick id started fc)).
  destruct (tick_observes id _ fc' count Hlive' Hobs') as (Hlive'' & _ & Hup & _).
  destruct Hup as (Hlast'' & Hcalls'' & _); [congruence | lia |].
  repeat split; [exact Hlive'' | congruence | exact Hlast''].
Qed.

(** X16. While no tick reads a count above the first one, [fn] is
    never called and the stored count stays the first one; later
    counts may be anything else, -1 included. *)
Theorem no_call_without_exceeding_the_first_count (first : ForumClient)
    (later : list ForumClient) (count : Z) (counts : list Z) :
  observes id first count ->
  count <> -1 ->
  Forall2 (observes id) later counts ->
  Forall (fun c => c <= count) counts ->
  callbacks (NewPostAlert id (first :: later)) = 0%nat /\
  lastPostCount (NewPostAlert id (first :: later)) = count /\
  status (NewPostAlert id (first :: later)) = Ticking.
Proof.
  intros Hfirst Hcount Hlater Hbelow.
  destruct (tick_observes id started first count eq_refl Hfirst)
    as (Hlive & Hinit & _).
  destruct (Hinit eq_refl) as (Hlast & Hcalls & _).
  change (NewPostAlert id (first :: later))
    with (fold_left (tick id) later (tick id started first)).
  destruct (ticks_not_above later counts Hlater (tick id started first) Hlive)
    as (Hlive' & Hlast' & Hcalls');
    [congruence | now rewrite Hlast |].
  change (callbacks started) with 0%nat in Hcalls.
  cbv zeta in *. repeat split; [congruence | congruence | exact Hlive'].
Qed.

End Alerts.

(** ** Further cases on tabulated documents *)

Module Cases.

Import Tabulated.

Local Existing Instance library.

Lemma literals_compile_tabulated : literals_compile.
Proof. unfold literals_compile. repeat constructor; discriminate. Defined.

Lemma GetUserProfilePage_error_is_fatal_witness :
  zero_UserProfile = zero_UserProfile /\
  ((exists cause,
       GetHTMLRoot down kalcor_url = inr cause /\
       Wrap (New "no such page") "failed to get HTML root for user page"
       = Wrap cause "failed to get HTML root for user page") \/
   (exists root path,
       GetHTMLRoot down kalcor_url = inl root /\
       Compile userName_expr = Some path /\
       Iter path root = [] /\
       Wrap (New "no such page") "failed to get HTML root for user page"
       = Wrap (New "user name xmlpath did not return a result")
              "url did not lead to a valid user page")).
Proof.
  exact (GetUserProfilePage_error_is_fatal down kalcor_url zero_UserProfile
           (Wrap (New "no such page") "failed to get HTML root for user page")
           eq_refl).
Defined.

Lemma Errors_at_most_five_witness :
  exists profile,
    GetUserProfilePage (posts_only "Total Posts: n/a") kalcor_url
    = Ret (profile, None) /\
    (List.length (Errors profile) <= 5)%nat.
Proof.
  eexists. split; [reflexivity|].
  exact (proj1 (Errors_at_most_five (posts_only "Total Posts: n/a") kalcor_url
                  _ eq_refl)).
Defined.

Lemma page_fields_depend_on_the_page_only_witness :
  exists profile profile',
    GetUserProfilePage (forum "Total Posts: 10") kalcor_url = Ret (profile, None) /\
    GetUserProfilePage
      (serve [(kalcor_url, member (LF ++ "Kalcor ") "Total Posts: 10")])
      kalcor_url = Ret (profile', None) /\
    Reputation profile <> Reputation profile' /\
    UserName profile = UserName profile' /\
    JoinDate profile = JoinDate profile' /\
    TotalPosts profile = TotalPosts profile' /\
    BioText profile = BioText profile' /\
    VisitorMessages profile = VisitorMessages profile'.
Proof.
  eexists _, _. split; [reflexivity|]. split; [reflexivity|].
  split; [discriminate|].
  exact (page_fields_depend_on_the_page_only
           (forum "Total Posts: 10")
           (serve [(kalcor_url, member (LF ++ "Kalcor ") "Total Posts: 10")])
           kalcor_url kalcor_url _ _ eq_refl eq_refl eq_refl).
Defined.

Lemma GetUserProfilePage_panics_only_in_getReputation_witness :
  exists root,
    GetHTMLRoot forum_without_fragment kalcor_url = inl root /\
    getReputation forum_without_fragment
      (strings.TrimPrefix kalcor_url member_url)
    = Panic "runtime error: index out of range".
Proof.
  exact (GetUserProfilePage_panics_only_in_getReputation
           forum_without_fragment kalcor_url _
           literals_compile_tabulated eq_refl).
Defined.

Lemma reputation_fields_no_label : reputation_fields forum_no_label "3" [].
Proof.
  exists (search "showthread.php?p=7#post7"), postLink_expr,
    (leaf "showthread.php?p=7#post7"), [],
    (thread "post7" []), "showthread.php?p=7", "post7", [],
    (reputation_expr "post7").
  repeat split.
Defined.

Lemma getReputation_soft_failures_witness :
  getReputation down "3"
  = Ret (0, Some (Wrap (New "no such page") "cannot get user's posts")) /\
  getReputation (serve [(search_url "3", blank)]) "3"
  = Ret (0, Some (New "cannot get user posts")) /\
  getReputation forum_dead_link "3"
  = Ret (0, Some (Wrap (New "no such page") "cannot get user's post in a topic"))
  /\
  getReputation forum_no_label "3"
  = Ret (0, Some (Wrap (NumError "Atoi" EmptyString strconv.ErrSyntax)
                       "cannot convert reputation to integer")).
Proof.
  split; [|split; [|split]].
  - exact (proj1 (getReputation_soft_failures down "3") _ eq_refl).
  - exact (proj1 (proj2 (getReputation_soft_failures
                           (serve [(search_url "3", blank)]) "3"))
             blank postLink_expr eq_refl eq_refl eq_refl).
  - exact (proj1 (proj2 (proj2 (getReputation_soft_failures forum_dead_link "3")))
             (search "showthread.php?p=7#post7") postLink_expr
             (leaf "showthread.php?p=7#post7") [] _ eq_refl eq_refl eq_refl
             eq_refl).
  - exact (proj2 (proj2 (proj2 (getReputation_soft_failures forum_no_label "3")))
             reputation_fields_no_label).
Defined.

Lemma getReputation_panics_only_at_the_fragment_witness :
  exists root link links root',
    GetHTMLRoot forum_without_fragment (search_url "3") = inl root /\
    Iter postLink_expr root = link :: links /\
    GetHTMLRoot forum_without_fragment (post_url (NodeString link)) = inl root' /\
    (strings.contains_byte (NodeString link) "#" = false \/
     exists piece fragment pieces,
       strings.Split (NodeString link) "#" = piece :: fragment :: pieces /\
       Compile (reputation_expr fragment) = None).
Proof.
  exact (getReputation_panics_only_at_the_fragment forum_without_fragment "3"
           "runtime error: index out of range" postLink_expr eq_refl eq_refl).
Defined.

Lemma getReputation_reads_the_anchor_after_the_first_hash_witness :
  getReputation forum_two_hashes "3" = Ret (55, None).
Proof.
  exact (getReputation_reads_the_anchor_after_the_first_hash
           forum_two_hashes "3"
           (search "showthread.php?p=7#post7#top")
           (thread "post7" ["Reputation: 55"])
           postLink_expr (reputation_expr "post7")
           (leaf "showthread.php?p=7#post7#top") []
           "showthread.php?p=7" "post7" "#top"
           eq_refl eq_refl eq_refl eq_refl eq_refl eq_refl eq_refl
           (or_intror (ex_intro _ "top" eq_refl)) eq_refl).
Defined.

Lemma UserName_has_no_outer_blanks_witness :
  (forall rest, "Kalcor" <> String " " rest) /\
  (forall pre, "Kalcor" <> pre ++ " ").
Proof.
  exact (UserName_has_no_outer_blanks (forum "Total Posts: 10") kalcor_url
           _ " "%char eq_refl eq_refl).
Defined.

Lemma separated_2_63 :
  Spec.separated (Spec.decimal 9223372036854775808) "9,223,372,036,854,775,808".
Proof.
  repeat first [ apply Spec.separated_end
               | apply Spec.separated_byte; [discriminate|]
               | apply Spec.separated_comma ].
Defined.

Lemma not_in_int_range_2_63 : ~ in_int_range 9223372036854775808.
Proof.
  unfold in_int_range. change strconv.cutoff with 9223372036854775808. lia.
Defined.

Lemma numerals_out_of_range_fail_witness :
  getTotalPosts (member "Kalcor" "Total Posts: 9,223,372,036,854,775,808")
  = Ret (0, Some (New "cannot convert posts to integer")).
Proof.
  exact (proj1 (numerals_out_of_range_fail 9223372036854775808
                  "9,223,372,036,854,775,808"
                  not_in_int_range_2_63 separated_2_63)
           (member "Kalcor" "Total Posts: 9,223,372,036,854,775,808")
           totalPosts_expr
           (leaf "Total Posts: 9,223,372,036,854,775,808") []
           eq_refl eq_refl eq_refl).
Defined.

Lemma visitor_messages_count_witness :
  exists result err,
    getFirstTenUserVisitorMessages (member "Kalcor" "Total Posts: 10")
    = Ret (result, err) /\
    List.length result = 3%nat /\
    (err = None <-> Iter messageList_expr (member "Kalcor" "Total Posts: 10") <> []).
Proof.
  destruct (visitor_messages_count (X := library)
              (member "Kalcor" "Total Posts: 10")
              messageList_expr messageUser_expr messageText_expr
              eq_refl eq_refl eq_refl)
    as (result & err & Hrun & Hlen & Herr & _).
  exists result, err. repeat split; trivial; apply Herr.
Defined.

Lemma poller_stops_after_panic_witness :
  status (NewPostAlert "3" ([showing "10"] ++ [forum_without_fragment]))
  <> Ticking /\
  NewPostAlert "3"
    ([showing "10"] ++ forum_without_fragment :: [showing "12"; showing "15"])
  = NewPostAlert "3" ([showing "10"] ++ [forum_without_fragment]).
Proof.
  exact (poller_stops_after_panic "3" [showing "10"]
           [showing "12"; showing "15"] forum_without_fragment
           "runtime error: index out of range" eq_refl).
Defined.

Lemma stored_count_is_the_maximum_witness :
  lastPostCount (NewPostAlert "3" [showing "10"; showing "12"; showing "9"]) = 12.
Proof.
  apply (stored_count_is_the_maximum "3" (showing "10")
           [showing "12"; showing "9"] 10 [12; 9]).
  - repeat constructor;
      first [exact Examples.observes_10 | exact Examples.observes_12
            | exact Examples.observes_9].
  - repeat constructor; discriminate.
Defined.

Lemma observes_minus_3 : observes "3" (showing "-3") (-3).
Proof. observed. Defined.

Lemma unreadable_first_count_alerts_at_first_positive_count_witness :
  (exists profile,
      GetUserProfilePage (posts_only "Total Posts: n/a") (member_url ++ "3")
      = Ret (profile, None) /\
      TotalPosts profile = 0 /\
      In (New "cannot convert posts to integer") (Errors profile)) /\
  (status (NewPostAlert "3" (posts_only "Total Posts: n/a" :: [showing "-3"]))
   = Ticking /\
   callbacks (NewPostAlert "3" (posts_only "Total Posts: n/a" :: [showing "-3"]))
   = 0%nat /\
   lastPostCount
     (NewPostAlert "3" (posts_only "Total Posts: n/a" :: [showing "-3"])) = 0) /\
  (status (NewPostAlert "3" (posts_only "Total Posts: n/a"
                             :: [showing "-3"] ++ [showing "10"])) = Ticking /\
   callbacks (NewPostAlert "3" (posts_only "Total Posts: n/a"
                                :: [showing "-3"] ++ [showing "10"])) = 1%nat /\
   lastPostCount (NewPostAlert "3" (posts_only "Total Posts: n/a"
                                    :: [showing "-3"] ++ [showing "10"])) = 10).
Proof.
  apply (unreadable_first_count_alerts_at_first_positive_count "3"
           (posts_only "Total Posts: n/a") (showing "10") [showing "-3"]
           (member "Kalcor" "Total Posts: n/a") "Kalcor" 0 0 10
           (New "cannot convert posts to integer")
           (Some (Wrap (New "no such page") "cannot get user's posts"))
           [-3] literals_compile_tabulated eq_refl eq_refl eq_refl eq_refl).
  - repeat constructor. exact observes_minus_3.
  - repeat constructor. discriminate.
  - exact Examples.observes_10.
  - reflexivity.
Defined.

Lemma no_call_without_exceeding_the_first_count_witness :
  callbacks (NewPostAlert "3" [showing "12"; showing "9"; showing "12"]) = 0%nat
  /\ lastPostCount (NewPostAlert "3" [showing "12"; showing "9"; showing "12"])
     = 12
  /\ status (NewPostAlert "3" [showing "12"; showing "9"; showing "12"])
     = Ticking.
Proof.
  apply (no_call_without_exceeding_the_first_count "3" (showing "12")
           [showing "9"; showing "12"] 12 [9; 12] Examples.observes_12).
  - discriminate.
  - repeat constructor;
      first [exact Examples.observes_9 | exact Examples.observes_12].
  - repeat constructor; discriminate.
Defined.

Lemma profile_reputation_is_of_the_same_id_witness :
  exists err,
    getReputation (forum "Total Posts: 10") "3" = Ret (-1234, err) /\
    (err = None \/ (-1234 = 0 /\ exists e, err = Some e /\ In e [])).
Proof.
  exact (profile_reputation_is_of_the_same_id (forum "Total Posts: 10") "3"
           _ eq_refl).
Defined.

End Cases.
